(** * relife: health classification of 18650 cells and 12S packs

    A shallow embedding of the classification engine of [relife.py]:
    [calculate_pack_specs], [avaliar_celula_individual],
    [avaliar_pack_voltage] and the worst-case loop that computes
    [status_pack_geral_base].

    Numbers.  The Python code computes on binary64 floats.  Here every
    voltage and resistance is an exact rational ([Q]): the decimal
    literals of the source ([3.00], [0.10], [20.00], ...) denote the
    decimal fractions they spell, and [+], [-], [*], [/] and the
    comparisons are exact.  Rounding, infinities and NaN are outside this
    model.  The series-cell count is a Python [int], here a [Z].

    Dictionaries with a fixed key set (a cell specification, a pack
    specification) are records whose fields carry the dictionary keys. *)

From Stdlib Require Import QArith Qabs Qround ZArith Bool List String Ascii.
From Stdlib Require Import Lia Lqa Permutation DecimalString.
Import ListNotations.

Open Scope Q_scope.

(** ** Python values and outcomes *)

(** A call either returns a value or raises an exception, named by its
    class. *)
Inductive resultado (A : Type) : Type :=
| Retorna (a : A)
| Levanta (excecao : string).

Arguments Retorna {A} a.
Arguments Levanta {A} excecao.

Definition bind {A B : Type} (r : resultado A) (k : A -> resultado B)
  : resultado B :=
  match r with
  | Retorna a => k a
  | Levanta e => Levanta e
  end.

Notation "x <- r ;; k" := (bind r (fun x => k))
  (at level 61, r at next level, right associativity).

Definition falha {A : Type} (r : resultado A) : Prop :=
  exists e, r = Levanta e.

(** Comparisons of numbers, as booleans. *)
Definition Qltb (a b : Q) : bool := if Qlt_le_dec a b then true else false.
Definition Qgtb (a b : Q) : bool := Qltb b a.
Definition Qgeb (a b : Q) : bool := negb (Qltb a b).

Infix "<?" := Qltb (at level 70, no associativity) : Q_scope.
Infix ">?" := Qgtb (at level 70, no associativity) : Q_scope.
Infix ">=?" := Qgeb (at level 70, no associativity) : Q_scope.

(** Python's true division [a / b]: it raises on a zero divisor. *)
Definition truediv (a b : Q) : resultado Q :=
  if Qeq_bool b 0 then Levanta "ZeroDivisionError"%string
  else Retorna (a / b).

(** ** Formatting of numbers: [f"{x:.2f}"] and [f"{x:.1f}"] *)

(** Nearest integer, ties to the even one. *)
Definition arredonda (x : Q) : Z :=
  let f := Qfloor x in
  let r := x - inject_Z f in
  if r <? 1 # 2 then f
  else if 1 # 2 <? r then (f + 1)%Z
  else if Z.even f then f else (f + 1)%Z.

Fixpoint zeros (n : nat) : string :=
  match n with
  | O => EmptyString
  | S k => String "0" (zeros k)
  end.

Definition digitos (n : Z) : string :=
  NilZero.string_of_uint (N.to_uint (Z.to_N n)).

(** [fmt_f casas x] is [f"{x:.<casas>f}"]. *)
Definition fmt_f (casas : nat) (x : Q) : string :=
  let escala := (10 ^ Z.of_nat casas)%Z in
  let m := arredonda (Qabs x * inject_Z escala) in
  let frac := digitos (m mod escala) in
  let sinal := if x <? 0 then "-"%string else ""%string in
  (sinal
   ++ digitos (m / escala)
   ++ (match casas with O => "" | S _ => "." end)
   ++ zeros (casas - String.length frac) ++ frac)%string.

(** ** 1. Cell models *)

Record CellSpec : Type := {
  NOME : string;
  FABRICANTE : string;
  FERRAMENTA_USO : string;
  TENSAO_NOMINAL : Q;
  TENSAO_CARGA_MAX : Q;
  TENSAO_CORTE : Q;
  IR_NOVA_TIPICA : Q;
  CORRENTE_MAX_CONTINUA : Q;
  CAPACIDADE_NOMINAL_MAH : Z
}.

Definition Sony : CellSpec := {|
  NOME := "Sony US18650VTC2";
  FABRICANTE := "Sony";
  FERRAMENTA_USO := "CLECO";
  TENSAO_NOMINAL := 3.70;
  TENSAO_CARGA_MAX := 4.20;
  TENSAO_CORTE := 2.50;
  IR_NOVA_TIPICA := 16.00;
  CORRENTE_MAX_CONTINUA := 30.00;
  CAPACIDADE_NOMINAL_MAH := 1550
|}.

Definition Panasonic : CellSpec := {|
  NOME := "Panasonic UR18650RX";
  FABRICANTE := "Panasonic";
  FERRAMENTA_USO := "Bosch";
  TENSAO_NOMINAL := 3.60;
  TENSAO_CARGA_MAX := 4.20;
  TENSAO_CORTE := 2.75;
  IR_NOVA_TIPICA := 20.00;
  CORRENTE_MAX_CONTINUA := 20.00;
  CAPACIDADE_NOMINAL_MAH := 1950
|}.

Definition ALL_CELL_SPECS : list (string * CellSpec) :=
  [("Sony"%string, Sony); ("Panasonic"%string, Panasonic)].

(** Thresholds of the cell evaluation, independent of the model. *)
Definition OCV_DIFF_LIMIAR_MONITOR : Q := 0.05.
Definition OCV_DIFF_LIMIAR_RUIM : Q := 0.10.
Definition OCV_ABSOLUTO_LIMIAR_RUIM : Q := 3.00.
Definition OCV_ABSOLUTO_LIMIAR_CRITICO : Q := 2.50.

Definition IR_LIMIAR_BOM_MAX : Q := 20.00.
Definition IR_LIMIAR_MONITOR_MAX : Q := 30.00.
Definition IR_LIMIAR_RUIM_MIN : Q := 30.00.

Definition IR_PCT_DIFF_LIMIAR_MONITOR : Q := 25.
Definition IR_PCT_DIFF_LIMIAR_RUIM : Q := 50.

(** ** 2. Pack specification *)

Record PackSpec : Type := {
  NUM_CELULAS_SERIE : Z;
  PACK_TENSAO_MAX : Q;
  PACK_TENSAO_NOMINAL : Q;
  PACK_TENSAO_CORTE : Q;
  PACK_TENSAO_LIMIAR_BOM_MIN : Q;
  PACK_TENSAO_LIMIAR_MONITOR_MIN : Q;
  PACK_TENSAO_LIMIAR_RUIM_MIN : Q;
  PACK_TENSAO_LIMIAR_CRITICO_MIN : Q
}.

(** [calculate_pack_specs(cell_specs_individual, num_cells_series)].  The
    body has no guard on [num_cells_series]; its only fallible operation
    is the division by the literal [12]. *)
Definition calculate_pack_specs (cell_specs_individual : CellSpec)
    (num_cells_series : Z) : resultado PackSpec :=
  let n := inject_Z num_cells_series in
  let pack_max := n * TENSAO_CARGA_MAX cell_specs_individual in
  let pack_nominal := n * TENSAO_NOMINAL cell_specs_individual in
  let pack_corte := n * TENSAO_CORTE cell_specs_individual in
  f_bom <- truediv n 12 ;;
  let bom_min := pack_nominal - 0.5 * f_bom in
  f_monitor <- truediv n 12 ;;
  let monitor_min := pack_corte + 6.0 * f_monitor in
  f_ruim <- truediv n 12 ;;
  let ruim_min := pack_corte + 1.2 * f_ruim in
  Retorna {|
    NUM_CELULAS_SERIE := num_cells_series;
    PACK_TENSAO_MAX := pack_max;
    PACK_TENSAO_NOMINAL := pack_nominal;
    PACK_TENSAO_CORTE := pack_corte;
    PACK_TENSAO_LIMIAR_BOM_MIN := bom_min;
    PACK_TENSAO_LIMIAR_MONITOR_MIN := monitor_min;
    PACK_TENSAO_LIMIAR_RUIM_MIN := ruim_min;
    PACK_TENSAO_LIMIAR_CRITICO_MIN := pack_corte
  |}.

(** The default [num_cells_series=12]. *)
Definition calculate_pack_specs_default (cell_specs_individual : CellSpec)
  : resultado PackSpec :=
  calculate_pack_specs cell_specs_individual 12.

(** ** 3. Severities *)

(** The four status strings of the source.  [Critico] stands for the
    string spelled with an acute accent on its first [i]. *)
Inductive status : Type := Bom | Monitorar | Ruim | Critico.

Definition rotulo (s : status) : string :=
  match s with
  | Bom => "Bom"
  | Monitorar => "Monitorar"
  | Ruim => "Ruim"
  | Critico => "Crítico"
  end.

Definition status_eqb (a b : status) : bool :=
  match a, b with
  | Bom, Bom | Monitorar, Monitorar | Ruim, Ruim | Critico, Critico => true
  | _, _ => false
  end.

(** The dictionary [status_pack_ordem]. *)
Definition status_pack_ordem (s : status) : nat :=
  match s with
  | Bom => 0
  | Monitorar => 1
  | Ruim => 2
  | Critico => 3
  end.

(** [status in ["Crítico", "Ruim"]]. *)
Definition critico_ou_ruim (s : status) : bool :=
  status_eqb s Critico || status_eqb s Ruim.

(** ** 4. Evaluation of one cell *)

(** The two locals [status] and [motivos] that the rule blocks update. *)
Record estado : Type := {
  st_status : status;
  st_motivos : list string
}.

Definition estado_inicial : estado :=
  {| st_status := Bom; st_motivos := [] |}.

(** [status = s] followed by [motivos.append(m)]. *)
Definition escala (s : status) (m : string) (e : estado) : estado :=
  {| st_status := s; st_motivos := st_motivos e ++ [m] |}.

Section Mensagens.
Local Open Scope string_scope.

Definition msg_ocv_muito_baixa (c : CellSpec) : string :=
  "OCV muito baixa (< " ++ fmt_f 2 (TENSAO_CORTE c)
  ++ "V). Risco de dano irreversível e segurança.".

Definition msg_ocv_baixa : string :=
  "OCV baixa (< " ++ fmt_f 2 OCV_ABSOLUTO_LIMIAR_RUIM
  ++ "V). Requer recarga urgente.".

Definition msg_ocv_desvio_alto (ocv_diff : Q) : string :=
  "OCV com alto desvio da média do pack (" ++ fmt_f 2 ocv_diff
  ++ "V). Indica forte desbalanceamento.".

Definition msg_ocv_desvio_moderado (ocv_diff : Q) : string :=
  "OCV com desvio moderado da média do pack (" ++ fmt_f 2 ocv_diff
  ++ "V). Indica desbalanceamento inicial.".

Definition msg_ir_muito_alta (ir : Q) : string :=
  "IR muito alta (" ++ fmt_f 2 ir
  ++ " mOhm). Célula degradada, compromete potência e aquecimento.".

Definition msg_ir_moderada (ir : Q) : string :=
  "IR moderada (" ++ fmt_f 2 ir
  ++ " mOhm). Degradando, requer monitoramento. ".

Definition msg_ir_acima_do_ideal (ir : Q) : string :=
  "IR um pouco acima do ideal (" ++ fmt_f 2 ir
  ++ " mOhm). Pode ser sinal de envelhecimento.".

Definition msg_ir_pct_alto (ir_pct_diff : Q) : string :=
  "IR com alto desvio percentual da média do pack ("
  ++ fmt_f 1 ir_pct_diff ++ "%). Sinal de degradação acentuada.".

Definition msg_ir_pct_moderado (ir_pct_diff : Q) : string :=
  "IR com desvio percentual moderado da média do pack ("
  ++ fmt_f 1 ir_pct_diff ++ "%). Início de degradação.".

Definition msg_dentro : string := "Dentro dos parâmetros esperados.".
End Mensagens.

Arguments msg_ocv_muito_baixa : simpl never.
Arguments msg_ocv_baixa : simpl never.
Arguments msg_ocv_desvio_alto : simpl never.
Arguments msg_ocv_desvio_moderado : simpl never.
Arguments msg_ir_muito_alta : simpl never.
Arguments msg_ir_moderada : simpl never.
Arguments msg_ir_acima_do_ideal : simpl never.
Arguments msg_ir_pct_alto : simpl never.
Arguments msg_ir_pct_moderado : simpl never.
Arguments msg_dentro : simpl never.

(** Lines 75-82: absolute voltage. *)
Definition avalia_ocv_absoluta (ocv : Q) (current_cell_specs : CellSpec)
    (e : estado) : estado :=
  if ocv <? TENSAO_CORTE current_cell_specs then
    escala Critico (msg_ocv_muito_baixa current_cell_specs) e
  else if ocv <? OCV_ABSOLUTO_LIMIAR_RUIM then
    if negb (status_eqb (st_status e) Critico)
    then escala Ruim msg_ocv_baixa e
    else e
  else e.

(** Lines 84-95: deviation of the voltage from the pack mean. *)
Definition avalia_ocv_desvio (ocv : Q) (ocv_media : option Q)
    (is_avulsa : bool) (e : estado) : estado :=
  if negb is_avulsa then
    match ocv_media with
    | Some media =>
        let ocv_diff := Qabs (ocv - media) in
        if ocv_diff >? OCV_DIFF_LIMIAR_RUIM then
          if negb (critico_ou_ruim (st_status e))
          then escala Ruim (msg_ocv_desvio_alto ocv_diff) e
          else e
        else if ocv_diff >? OCV_DIFF_LIMIAR_MONITOR then
          if status_eqb (st_status e) Bom
          then escala Monitorar (msg_ocv_desvio_moderado ocv_diff) e
          else e
        else e
    | None => e
    end
  else e.

(** Lines 98-109: absolute internal resistance. *)
Definition avalia_ir_absoluta (ir : Q) (e : estado) : estado :=
  if ir >=? IR_LIMIAR_RUIM_MIN then
    if negb (critico_ou_ruim (st_status e))
    then escala Ruim (msg_ir_muito_alta ir) e
    else e
  else if ir >=? IR_LIMIAR_MONITOR_MAX then
    if status_eqb (st_status e) Bom
    then escala Monitorar (msg_ir_moderada ir) e
    else e
  else if ir >? IR_LIMIAR_BOM_MAX then
    if status_eqb (st_status e) Bom
    then escala Monitorar (msg_ir_acima_do_ideal ir) e
    else e
  else e.

(** Lines 111-122: percentage deviation of the resistance from the pack
    mean. *)
Definition avalia_ir_desvio (ir : Q) (ir_media : option Q)
    (is_avulsa : bool) (e : estado) : resultado estado :=
  if negb is_avulsa then
    match ir_media with
    | Some media =>
        if media >? 0 then
          q <- truediv (ir - media) media ;;
          let ir_pct_diff := q * 100 in
          if ir_pct_diff >? IR_PCT_DIFF_LIMIAR_RUIM then
            if negb (critico_ou_ruim (st_status e))
            then Retorna (escala Ruim (msg_ir_pct_alto ir_pct_diff) e)
            else Retorna e
          else if ir_pct_diff >? IR_PCT_DIFF_LIMIAR_MONITOR then
            if status_eqb (st_status e) Bom
            then Retorna
                   (escala Monitorar (msg_ir_pct_moderado ir_pct_diff) e)
            else Retorna e
          else Retorna e
        else Retorna e
    | None => Retorna e
    end
  else Retorna e.

(** Lines 124-125: the default reason. *)
Definition motivo_padrao (e : estado) : estado :=
  match st_motivos e with
  | [] =>
      if status_eqb (st_status e) Bom
      then {| st_status := st_status e;
              st_motivos := st_motivos e ++ [msg_dentro] |}
      else e
  | _ :: _ => e
  end.

(** The body of [avaliar_celula_individual] up to its [return]. *)
Definition avaliar_celula_estado (ocv ir : Q) (current_cell_specs : CellSpec)
    (ocv_media ir_media : option Q) (is_avulsa : bool) : resultado estado :=
  let e1 := avalia_ocv_absoluta ocv current_cell_specs estado_inicial in
  let e2 := avalia_ocv_desvio ocv ocv_media is_avulsa e1 in
  let e3 := avalia_ir_absoluta ir e2 in
  e4 <- avalia_ir_desvio ir ir_media is_avulsa e3 ;;
  Retorna (motivo_padrao e4).

(** Line 127: ["; ".join(motivos) if motivos else "N/A"]. *)
Definition junta_motivos (motivos : list string) : string :=
  match motivos with
  | [] => "N/A"%string
  | _ :: _ => String.concat "; " motivos
  end.

Definition avaliar_celula_individual (ocv ir : Q)
    (current_cell_specs : CellSpec) (ocv_media ir_media : option Q)
    (is_avulsa : bool) : resultado (status * string) :=
  e <- avaliar_celula_estado ocv ir current_cell_specs ocv_media ir_media
         is_avulsa ;;
  Retorna (st_status e, junta_motivos (st_motivos e)).

(** ** 5. Evaluation of the total pack voltage *)

Section MensagensPack.
Local Open Scope string_scope.

Definition tensao_total (v : Q) : string :=
  "Tensão total do pack (" ++ fmt_f 2 v ++ "V)".

Definition msg_pack_acima (v : Q) (p : PackSpec) : string :=
  tensao_total v ++ " acima do máximo permitido ("
  ++ fmt_f 2 (PACK_TENSAO_MAX p)
  ++ "V). Risco de sobrecarga e superaquecimento.".

Definition msg_pack_abaixo_corte (v : Q) (p : PackSpec) : string :=
  tensao_total v ++ " abaixo da tensão de corte ("
  ++ fmt_f 2 (PACK_TENSAO_LIMIAR_CRITICO_MIN p)
  ++ "V). Risco de dano irreversível às células e segurança comprometida.".

Definition msg_pack_muito_baixa (v : Q) : string :=
  tensao_total v
  ++ " muito baixa. Próximo à descarga crítica, a ferramenta pode falhar sob carga.".

Definition msg_pack_baixa (v : Q) : string :=
  tensao_total v
  ++ " baixa. Sugere que o pack precisa ser recarregado em breve.".

Definition msg_pack_abaixo_nominal (v : Q) : string :=
  tensao_total v
  ++ " abaixo da nominal, mas aceitável. Indicativo de SoC intermediário.".

Definition msg_pack_dentro (v : Q) : string :=
  tensao_total v ++ " dentro dos limites esperados e saudáveis.".
End MensagensPack.

(** The [if]/[elif] ladder of [avaliar_pack_voltage], on the locals
    [status_pack_v] and [motivos_pack_v]. *)
Definition avaliar_pack_estado (total_pack_voltage_medido : Q)
    (current_pack_specs : PackSpec) : estado :=
  let v := total_pack_voltage_medido in
  let e := estado_inicial in
  if v >? PACK_TENSAO_MAX current_pack_specs + 0.1 then
    escala Critico (msg_pack_acima v current_pack_specs) e
  else if v <? PACK_TENSAO_LIMIAR_CRITICO_MIN current_pack_specs then
    escala Critico (msg_pack_abaixo_corte v current_pack_specs) e
  else if v <? PACK_TENSAO_LIMIAR_RUIM_MIN current_pack_specs then
    escala Ruim (msg_pack_muito_baixa v) e
  else if v <? PACK_TENSAO_LIMIAR_MONITOR_MIN current_pack_specs then
    escala Monitorar (msg_pack_baixa v) e
  else if v <? PACK_TENSAO_LIMIAR_BOM_MIN current_pack_specs then
    escala Monitorar (msg_pack_abaixo_nominal v) e
  else
    {| st_status := st_status e;
       st_motivos := st_motivos e ++ [msg_pack_dentro v] |}.

(** Its [return]: the status and ["; ".join(motivos_pack_v)]. *)
Definition avaliar_pack_voltage (total_pack_voltage_medido : Q)
    (current_pack_specs : PackSpec) : status * string :=
  let e := avaliar_pack_estado total_pack_voltage_medido current_pack_specs in
  (st_status e, String.concat "; " (st_motivos e)).

(** ** 6. The overall status of a pack *)

(** One turn of the loop of lines 616-624 on [status_pack_geral_base]. *)
Definition pior (status_pack_geral_base status_celula : status) : status :=
  if (status_pack_ordem status_pack_geral_base
      <? status_pack_ordem status_celula)%nat
  then status_celula
  else status_pack_geral_base.

(** The loop: it starts from the status of the total voltage and visits
    the cells in order. *)
Definition status_pack_geral_base (status_pack_v : status)
    (status_celulas : list status) : status :=
  fold_left pior status_celulas status_pack_v.

(** [np.mean] of a non-empty list of readings (the pack table has a fixed,
    positive number of rows). *)
Definition media (valores : list Q) : Q :=
  fold_right Qplus 0 valores / inject_Z (Z.of_nat (List.length valores)).

(** Evaluation of every cell of a pack against the pack means, as in the
    loop of lines 616-619. *)
Fixpoint avaliar_celulas (celulas : list (Q * Q)) (spec : CellSpec)
    (ocv_media ir_media : Q) : resultado (list (status * string)) :=
  match celulas with
  | [] => Retorna []
  | (ocv, ir) :: resto =>
      r <- avaliar_celula_individual ocv ir spec (Some ocv_media)
             (Some ir_media) false ;;
      rs <- avaliar_celulas resto spec ocv_media ir_media ;;
      Retorna (r :: rs)
  end.

(** Lines 587-624: the means, the status of the total voltage, the
    status of each cell and the overall status. *)
Definition analisar_pack (total_pack_voltage_input : Q)
    (celulas : list (Q * Q)) (spec : CellSpec) (pack : PackSpec)
  : resultado (status * list (status * string) * status) :=
  let ocv_media_pack := media (map fst celulas) in
  let ir_media_pack := media (map snd celulas) in
  let status_pack_v :=
    fst (avaliar_pack_voltage total_pack_voltage_input pack) in
  rs <- avaliar_celulas celulas spec ocv_media_pack ir_media_pack ;;
  Retorna (status_pack_v, rs,
           status_pack_geral_base status_pack_v (map fst rs)).

(** The discrepancy warning of line 605. *)
Definition discrepancia (total_pack_voltage_input : Q) (ocvs : list Q)
  : bool :=
  Qabs (total_pack_voltage_input - fold_right Qplus 0 ocvs) >? 0.5.

(** Substring test, for reasons that mention a phrase. *)
Fixpoint menciona (frase texto : string) : bool :=
  if String.prefix frase texto then true
  else match texto with
       | EmptyString => false
       | String _ resto => menciona frase resto
       end.

(** ** 7. Scenarios and reference formulations *)








(** The largest rank among a pack-voltage status and the cell statuses. *)
Definition maior_ordem (status_pack_v : status) (status_celulas : list status)
  : nat :=
  fold_right Nat.max (status_pack_ordem status_pack_v)
    (map status_pack_ordem status_celulas).

(** The rank of the status a cell evaluation returns. *)
Definition ordem_resultado (r : resultado (status * string)) : option nat :=
  match r with
  | Retorna (s, _) => Some (status_pack_ordem s)
  | Levanta _ => None
  end.

(** The rules of section 4.2 as severities to be merged by maximum: what
    each rule block asks for, whatever the status it meets. *)
Definition sev_ocv_absoluta (ocv : Q) (c : CellSpec) : status :=
  if ocv <? TENSAO_CORTE c then Critico
  else if ocv <? OCV_ABSOLUTO_LIMIAR_RUIM then Ruim
  else Bom.

Definition sev_desvio (ocv_diff : Q) : status :=
  if ocv_diff >? OCV_DIFF_LIMIAR_RUIM then Ruim
  else if ocv_diff >? OCV_DIFF_LIMIAR_MONITOR then Monitorar
  else Bom.

Definition sev_ocv_desvio (ocv : Q) (ocv_media : option Q)
    (is_avulsa : bool) : status :=
  match is_avulsa, ocv_media with
  | false, Some media => sev_desvio (Qabs (ocv - media))
  | _, _ => Bom
  end.

Definition sev_ir_absoluta (ir : Q) : status :=
  if ir >=? IR_LIMIAR_RUIM_MIN then Ruim
  else if ir >? IR_LIMIAR_BOM_MAX then Monitorar
  else Bom.

Definition sev_pct (ir_pct_diff : Q) : status :=
  if ir_pct_diff >? IR_PCT_DIFF_LIMIAR_RUIM then Ruim
  else if ir_pct_diff >? IR_PCT_DIFF_LIMIAR_MONITOR then Monitorar
  else Bom.

Definition sev_ir_desvio (ir : Q) (ir_media : option Q) (is_avulsa : bool)
  : status :=
  match is_avulsa, ir_media with
  | false, Some media =>
      if media >? 0 then sev_pct ((ir - media) / media * 100) else Bom
  | _, _ => Bom
  end.

(** One rule block either leaves the two locals alone or sets a status
    other than [Bom] and appends one reason. *)
Inductive passo (e : estado) : estado -> Prop :=
| passo_nada : passo e e
| passo_escala (s : status) (m : string) :
    s <> Bom -> passo e (escala s m e).

(** What the rule blocks maintain: a status other than [Bom] comes with
    a reason. *)
Definition justificado (e : estado) : Prop :=
  st_status e = Bom \/ st_motivos e <> [].

(** The second evaluation returns a status at least as severe as the
    first; both return. *)
Definition nao_diminui (r1 r2 : resultado (status * string)) : Prop :=
  match ordem_resultado r1, ordem_resultado r2 with
  | Some n1, Some n2 => (n1 <= n2)%nat
  | _, _ => False
  end.

From Stdlib Require Import Sorted.

(** ** 8. Further notions used by the properties *)

(** A rule block that changes the two locals raises the status strictly
    and appends one reason. *)
Definition sobe (e e' : estado) : Prop :=
  e' = e
  \/ exists s m,
       (status_pack_ordem (st_status e) < status_pack_ordem s)%nat
       /\ e' = escala s m e.

(** The reasons collected so far are no more than the rank reached. *)
Definition contado (e : estado) : Prop :=
  (List.length (st_motivos e) <= status_pack_ordem (st_status e))%nat.

(** The dictionary that [calculate_pack_specs] builds, field by field. *)
Definition pack_specs_de (c : CellSpec) (n : Z) : PackSpec := {|
  NUM_CELULAS_SERIE := n;
  PACK_TENSAO_MAX := inject_Z n * TENSAO_CARGA_MAX c;
  PACK_TENSAO_NOMINAL := inject_Z n * TENSAO_NOMINAL c;
  PACK_TENSAO_CORTE := inject_Z n * TENSAO_CORTE c;
  PACK_TENSAO_LIMIAR_BOM_MIN :=
    inject_Z n * TENSAO_NOMINAL c - 0.5 * (inject_Z n / 12);
  PACK_TENSAO_LIMIAR_MONITOR_MIN :=
    inject_Z n * TENSAO_CORTE c + 6.0 * (inject_Z n / 12);
  PACK_TENSAO_LIMIAR_RUIM_MIN :=
    inject_Z n * TENSAO_CORTE c + 1.2 * (inject_Z n / 12);
  PACK_TENSAO_LIMIAR_CRITICO_MIN := inject_Z n * TENSAO_CORTE c
|}.

(** One row of the table of pack measurements: the keys ["Célula"],
    ["OCV (V)"] and ["IR (mOhm)"]. *)
Record linha_pack : Type := {
  lp_celula : string;
  lp_ocv : Q;
  lp_ir : Q
}.

(** Lines 508-512 and 564-568: the table a fresh or reset form holds,
    one row per cell of the series, at the maximum charge voltage and the
    typical resistance of a new cell. *)
Definition pack_cell_data_padrao (spec : CellSpec) (pack : PackSpec)
  : list linha_pack :=
  map (fun i : nat =>
         {| lp_celula := ("Célula " ++ digitos (Z.of_nat i + 1))%string;
            lp_ocv := TENSAO_CARGA_MAX spec;
            lp_ir := IR_NOVA_TIPICA spec |})
      (seq 0 (Z.to_nat (NUM_CELULAS_SERIE pack))).



(** ** 9. Presentation helpers and form state *)

(** [d[k]] on a dictionary kept as an association list: it raises
    [KeyError] on a missing key. *)
Fixpoint procura {A : Type} (k : string) (d : list (string * A))
  : resultado A :=
  match d with
  | [] => Levanta "KeyError"
  | (k', v) :: resto => if String.eqb k k' then Retorna v else procura k resto
  end.

(** [color_status(val)], the style of a status cell of the result
    tables. *)
Definition color_status (val : string) : string :=
  if String.eqb val "Crítico" then "background-color: #ffcccc"%string
  else if String.eqb val "Ruim" then "background-color: #ffe6cc"%string
  else if String.eqb val "Monitorar" then "background-color: #ffffcc"%string
  else if String.eqb val "Bom" then "background-color: #ccffcc"%string
  else ""%string.

(** The [color_discrete_map] of the four bar charts. *)
Definition color_discrete_map : list (string * string) :=
  [ ("Bom", "#ccffcc"); ("Monitorar", "#ffffcc");
    ("Ruim", "#ffe6cc"); ("Crítico", "#ffcccc") ]%string.

(** The part of the session state that holds the pack table. *)
Record sessao_pack : Type := {
  sp_pack_cell_data : option (list linha_pack);
  sp_last_selected_cell_type_pack_for_defaults : option string;
  sp_selected_cell_type_pack : string
}.

Definition option_string_eqb (a : option string) (b : string) : bool :=
  match a with
  | Some x => String.eqb x b
  | None => false
  end.

(** Lines 507-522: the table is created when the key is missing, and
    replaced by the defaults when the cell type changed or the number of
    rows is not the series count. *)
Definition prepara_pack_cell_data (spec : CellSpec) (pack : PackSpec)
    (s : sessao_pack) : sessao_pack :=
  let tabela :=
    match sp_pack_cell_data s with
    | Some t => t
    | None => pack_cell_data_padrao spec pack
    end in
  if negb (option_string_eqb
             (sp_last_selected_cell_type_pack_for_defaults s)
             (sp_selected_cell_type_pack s))
     || negb (Z.of_nat (List.length tabela) =? NUM_CELULAS_SERIE pack)%Z
  then {| sp_pack_cell_data := Some (pack_cell_data_padrao spec pack);
          sp_last_selected_cell_type_pack_for_defaults :=
            Some (sp_selected_cell_type_pack s);
          sp_selected_cell_type_pack := sp_selected_cell_type_pack s |}
  else {| sp_pack_cell_data := Some tabela;
          sp_last_selected_cell_type_pack_for_defaults :=
            sp_last_selected_cell_type_pack_for_defaults s;
          sp_selected_cell_type_pack := sp_selected_cell_type_pack s |}.

(** One registered loose cell: the keys ["ID da Célula"], ["Data Teste"],
    ["OCV (V)"] and ["IR (mOhm)"]. *)
Record linha_avulsa : Type := {
  la_id : string;
  la_data : string;
  la_ocv : Q;
  la_ir : Q
}.

Inductive aviso : Type :=
| AvisoIdDuplicado (id : string)
| AvisoCamposVazios.

Section CelulasAvulsas.

(** Calendar dates and [strftime("%Y-%m-%d")] belong to the [datetime]
    library. *)
Variable data : Type.
Variable strftime : data -> string.

(** The part of the session state behind the form of loose cells. *)
Record sessao_avulsa : Type := {
  sa_avulsa_cell_data : option (list linha_avulsa);
  sa_new_avulsa_id : string;
  sa_new_avulsa_date : data;
  sa_new_avulsa_ocv : Q;
  sa_new_avulsa_ir : Q
}.

(** [st.session_state.get('avulsa_cell_data', [])]. *)
Definition celulas_cadastradas (s : sessao_avulsa) : list linha_avulsa :=
  match sa_avulsa_cell_data s with
  | Some l => l
  | None => []
  end.

(** Lines 912-937, the button that adds a cell.  The two number inputs
    always hold a number, so that only the identifier can be missing. *)
Definition adicionar_celula (hoje : data) (spec : CellSpec)
    (s : sessao_avulsa) (new_cell_id : string) (new_cell_date : data)
    (new_cell_ocv new_cell_ir : Q) : sessao_avulsa * option aviso :=
  if negb (String.eqb new_cell_id "") then
    let current_ids := map la_id (celulas_cadastradas s) in
    if existsb (String.eqb new_cell_id) current_ids then
      (s, Some (AvisoIdDuplicado new_cell_id))
    else
      ({| sa_avulsa_cell_data :=
            Some (celulas_cadastradas s
                  ++ [ {| la_id := new_cell_id;
                          la_data := strftime new_cell_date;
                          la_ocv := new_cell_ocv;
                          la_ir := new_cell_ir |} ]);
          sa_new_avulsa_id := "";
          sa_new_avulsa_date := hoje;
          sa_new_avulsa_ocv := TENSAO_CARGA_MAX spec;
          sa_new_avulsa_ir := IR_NOVA_TIPICA spec |}, None)
  else (s, Some AvisoCamposVazios).

(** A sequence of presses of the button, each with the contents of the
    four inputs. *)
Definition adicionar_varias (hoje : data) (spec : CellSpec)
    (s : sessao_avulsa) (entradas : list (string * data * Q * Q))
  : sessao_avulsa :=
  fold_left
    (fun s '(id, d, ocv, ir) => fst (adicionar_celula hoje spec s id d ocv ir))
    entradas s.

End CelulasAvulsas.

Arguments sa_avulsa_cell_data {data}.
Arguments sa_new_avulsa_id {data}.
Arguments sa_new_avulsa_date {data}.
Arguments sa_new_avulsa_ocv {data}.
Arguments sa_new_avulsa_ir {data}.
Arguments celulas_cadastradas {data}.
Arguments adicionar_celula {data}.
Arguments adicionar_varias {data}.

(** A value decoded by [json.loads]. *)
#[warnings="-register-all"] Inductive json : Type :=
| JNull
| JBool (b : bool)
| JNum (q : Q)
| JStr (s : string)
| JArr (itens : list json)
| JObj (campos : list (string * json)).

(** [v == texto] for a decoded value and a string literal. *)
Definition json_igual_str (v : json) (texto : string) : bool :=
  match v with
  | JStr s => String.eqb s texto
  | _ => false
  end.

(** Lines 1054-1055: the cell type chosen from the manufacturer found in
    an uploaded file. *)
Definition cell_type_from_json (fabricante : json) : string :=
  if json_igual_str fabricante "Sony" then "Sony"%string
  else "Panasonic"%string.

(** ** 10. The analysis of loose cells *)

(** A row of the data frame of loose cells after [pd.to_numeric] with
    [errors='coerce']: a reading that is not a number has become NaN,
    here [None]. *)
Record linha_df : Type := {
  df_id : string;
  df_data : string;
  df_ocv : option Q;
  df_ir : option Q
}.

(** A row of [resultados_celulas_avulsas]: both readings as the text of
    two decimals, the status and the reasons. *)
Record linha_resultado : Type := {
  lr_id : string;
  lr_data : string;
  lr_ocv : string;
  lr_ir : string;
  lr_status : status;
  lr_obs : string
}.

(** Line 1094: the rows when neither column holds a NaN. *)
Fixpoint sem_nulos (df : list linha_df) : option (list linha_avulsa) :=
  match df with
  | [] => Some []
  | l :: resto =>
      match df_ocv l, df_ir l, sem_nulos resto with
      | Some ocv, Some ir, Some ls =>
          Some ({| la_id := df_id l; la_data := df_data l;
                   la_ocv := ocv; la_ir := ir |} :: ls)
      | _, _, _ => None
      end
  end.

(** Lines 1099-1110: every cell is evaluated as a standalone cell. *)
Fixpoint avaliar_avulsas (spec : CellSpec) (ls : list linha_avulsa)
  : resultado (list linha_resultado) :=
  match ls with
  | [] => Retorna []
  | l :: resto =>
      r <- avaliar_celula_individual (la_ocv l) (la_ir l) spec None None
             true ;;
      rs <- avaliar_avulsas spec resto ;;
      Retorna ({| lr_id := la_id l;
                  lr_data := la_data l;
                  lr_ocv := fmt_f 2 (la_ocv l);
                  lr_ir := fmt_f 2 (la_ir l);
                  lr_status := fst r;
                  lr_obs := snd r |} :: rs)
  end.

(** The order of one sort column, NaN last whatever the direction. *)
Definition compara_coluna (ascending : bool) (a b : option Q) : comparison :=
  match a, b with
  | Some x, Some y => if ascending then x ?= y else y ?= x
  | Some _, None => Lt
  | None, Some _ => Gt
  | None, None => Eq
  end.

Section OrdenacaoAvulsas.

(** [pd.to_numeric(..., errors='coerce')] on a column of texts belongs to
    pandas. *)
Variable to_numeric : string -> option Q.

(** Lines 1116-1122: the two temporary columns and the order
    [by=[IR, OCV]], [ascending=[True, False]]: [a] may stand before
    [b]. *)
Definition nao_depois (a b : linha_resultado) : bool :=
  match compara_coluna true (to_numeric (lr_ir a)) (to_numeric (lr_ir b)) with
  | Lt => true
  | Gt => false
  | Eq =>
      match compara_coluna false (to_numeric (lr_ocv a))
              (to_numeric (lr_ocv b)) with
      | Gt => false
      | _ => true
      end
  end.

(** [sort_values] keeps the rows with equal keys in their order. *)
Fixpoint insere (x : linha_resultado) (l : list linha_resultado)
  : list linha_resultado :=
  match l with
  | [] => [x]
  | y :: resto => if nao_depois x y then x :: l else y :: insere x resto
  end.

Fixpoint ordena (l : list linha_resultado) : list linha_resultado :=
  match l with
  | [] => []
  | x :: resto => insere x (ordena resto)
  end.

(** Lines 1094-1123: the error on a NaN ([None] here), otherwise the
    evaluated rows, sorted from best to worst. *)
Definition analisar_avulsas (spec : CellSpec) (df : list linha_df)
  : resultado (option (list linha_resultado)) :=
  match sem_nulos df with
  | None => Retorna None
  | Some ls =>
      rs <- avaliar_avulsas spec ls ;;
      Retorna (Some (ordena rs))
  end.

End OrdenacaoAvulsas.

(** What a result row shows of a registered cell. *)
Definition linha_de (spec : CellSpec) (l : linha_avulsa)
    (r : linha_resultado) : Prop :=
  lr_id r = la_id l
  /\ lr_data r = la_data l
  /\ lr_ocv r = fmt_f 2 (la_ocv l)
  /\ lr_ir r = fmt_f 2 (la_ir l)
  /\ avaliar_celula_individual (la_ocv l) (la_ir l) spec None None true
     = Retorna (lr_status r, lr_obs r).

(** ** 11. Loading a file of loose cells *)

(** Python's [k in v], [v[k]], [v.get(k, d)] and [len(v)] for a string
    key and a decoded value; an object holds each key once. *)
Definition py_in (k : string) (v : json) : resultado bool :=
  match v with
  | JObj campos =>
      Retorna (existsb (fun campo => String.eqb k (fst campo)) campos)
  | JArr itens => Retorna (existsb (fun i => json_igual_str i k) itens)
  | JStr s => Retorna (menciona k s)
  | _ => Levanta "TypeError"
  end.

Definition py_getitem (v : json) (k : string) : resultado json :=
  match v with
  | JObj campos => procura k campos
  | _ => Levanta "TypeError"
  end.

Definition py_get (v : json) (k : string) (padrao : json) : resultado json :=
  match v with
  | JObj campos =>
      Retorna (match procura k campos with
               | Retorna x => x
               | Levanta _ => padrao
               end)
  | _ => Levanta "AttributeError"
  end.

Definition py_len (v : json) : resultado nat :=
  match v with
  | JObj campos => Retorna (List.length campos)
  | JArr itens => Retorna (List.length itens)
  | JStr s => Retorna (String.length s)
  | _ => Levanta "TypeError"
  end.

(** What the page shows while a file is processed. *)
Inductive mensagem : Type :=
| MsgTipoAlterado (cell_type : string)
| MsgSucesso (celulas : nat)
| MsgSemChave
| MsgJSONInvalido
| MsgErroInesperado (excecao : string).

Section CarregarJSON.

(** [json.loads], with [None] for [JSONDecodeError], belongs to the
    [json] library; dates and their formatting to [datetime]. *)
Variable loads : string -> option json.
Variable data : Type.
Variable strftime : data -> string.

(** A header value of the session: a date object, or what a file
    held. *)
Inductive valor_cabecalho : Type :=
| VData (d : data)
| VJson (j : json).

(** The session state the upload reads and writes. *)
Record sessao_upload : Type := {
  su_process_avulsa_json_flag : bool;
  su_uploaded_avulsa_json_string : option string;
  su_avulsa_cell_data : json;
  su_data_geracao_relatorio : valor_cabecalho;
  su_nome_tecnico : valor_cabecalho;
  su_selected_cell_type_avulsa : string;
  su_run_avulsa_analysis : option bool
}.

Definition limpa_string (s : sessao_upload) : sessao_upload :=
  {| su_process_avulsa_json_flag := su_process_avulsa_json_flag s;
     su_uploaded_avulsa_json_string := None;
     su_avulsa_cell_data := su_avulsa_cell_data s;
     su_data_geracao_relatorio := su_data_geracao_relatorio s;
     su_nome_tecnico := su_nome_tecnico s;
     su_selected_cell_type_avulsa := su_selected_cell_type_avulsa s;
     su_run_avulsa_analysis := su_run_avulsa_analysis s |}.

(** Lines 1047-1051: the two header values, when the file has a
    header. *)
Definition carrega_cabecalho (hoje : data) (json_data : json)
    (s : sessao_upload) : sessao_upload * resultado unit :=
  match py_in "header_info" json_data with
  | Levanta e => (s, Levanta e)
  | Retorna false => (s, Retorna tt)
  | Retorna true =>
      match py_getitem json_data "header_info" with
      | Levanta e => (s, Levanta e)
      | Retorna h =>
          match py_get h "data_geracao_relatorio" (JStr (strftime hoje)) with
          | Levanta e => (s, Levanta e)
          | Retorna d =>
              let s1 :=
                {| su_process_avulsa_json_flag :=
                     su_process_avulsa_json_flag s;
                   su_uploaded_avulsa_json_string :=
                     su_uploaded_avulsa_json_string s;
                   su_avulsa_cell_data := su_avulsa_cell_data s;
                   su_data_geracao_relatorio := VJson d;
                   su_nome_tecnico := su_nome_tecnico s;
                   su_selected_cell_type_avulsa :=
                     su_selected_cell_type_avulsa s;
                   su_run_avulsa_analysis := su_run_avulsa_analysis s |} in
              match py_getitem json_data "header_info" with
              | Levanta e => (s1, Levanta e)
              | Retorna h' =>
                  match py_get h' "nome_tecnico" (JStr "Diógenes Oliveira")
                  with
                  | Levanta e => (s1, Levanta e)
                  | Retorna n =>
                      ({| su_process_avulsa_json_flag :=
                            su_process_avulsa_json_flag s1;
                          su_uploaded_avulsa_json_string :=
                            su_uploaded_avulsa_json_string s1;
                          su_avulsa_cell_data := su_avulsa_cell_data s1;
                          su_data_geracao_relatorio :=
                            su_data_geracao_relatorio s1;
                          su_nome_tecnico := VJson n;
                          su_selected_cell_type_avulsa :=
                            su_selected_cell_type_avulsa s1;
                          su_run_avulsa_analysis :=
                            su_run_avulsa_analysis s1 |}, Retorna tt)
                  end
              end
          end
      end
  end.

(** Lines 1053-1059: the cell type, when the file names a
    manufacturer. *)
Definition carrega_tipo (json_data : json) (s : sessao_upload)
  : sessao_upload * list mensagem * resultado unit :=
  match py_in "cell_specs_individual" json_data with
  | Levanta e => (s, [], Levanta e)
  | Retorna false => (s, [], Retorna tt)
  | Retorna true =>
      match py_getitem json_data "cell_specs_individual" with
      | Levanta e => (s, [], Levanta e)
      | Retorna specs =>
          match py_in "FABRICANTE" specs with
          | Levanta e => (s, [], Levanta e)
          | Retorna false => (s, [], Retorna tt)
          | Retorna true =>
              match py_getitem json_data "cell_specs_individual" with
              | Levanta e => (s, [], Levanta e)
              | Retorna specs' =>
                  match py_getitem specs' "FABRICANTE" with
                  | Levanta e => (s, [], Levanta e)
                  | Retorna fabricante =>
                      let t := cell_type_from_json fabricante in
                      if negb (String.eqb t (su_selected_cell_type_avulsa s))
                      then
                        ({| su_process_avulsa_json_flag :=
                              su_process_avulsa_json_flag s;
                            su_uploaded_avulsa_json_string :=
                              su_uploaded_avulsa_json_string s;
                            su_avulsa_cell_data := su_avulsa_cell_data s;
                            su_data_geracao_relatorio :=
                              su_data_geracao_relatorio s;
                            su_nome_tecnico := su_nome_tecnico s;
                            su_selected_cell_type_avulsa := t;
                            su_run_avulsa_analysis :=
                              su_run_avulsa_analysis s |},
                         [MsgTipoAlterado t], Retorna tt)
                      else (s, [], Retorna tt)
                  end
              end
          end
      end
  end.

(** Lines 1043-1070, the body of the [try]: the state reached, the
    messages shown, and either whether the page is rerun or the
    exception that left the body. *)
Definition corpo_carregar (hoje : data) (json_data : json)
    (s : sessao_upload) : sessao_upload * list mensagem * resultado bool :=
  match py_in "individual_cell_results" json_data with
  | Levanta e => (s, [], Levanta e)
  | Retorna false => (limpa_string s, [MsgSemChave], Retorna false)
  | Retorna true =>
      match py_getitem json_data "individual_cell_results" with
      | Levanta e => (s, [], Levanta e)
      | Retorna celulas =>
          let s1 :=
            {| su_process_avulsa_json_flag := su_process_avulsa_json_flag s;
               su_uploaded_avulsa_json_string :=
                 su_uploaded_avulsa_json_string s;
               su_avulsa_cell_data := celulas;
               su_data_geracao_relatorio := su_data_geracao_relatorio s;
               su_nome_tecnico := su_nome_tecnico s;
               su_selected_cell_type_avulsa :=
                 su_selected_cell_type_avulsa s;
               su_run_avulsa_analysis := su_run_avulsa_analysis s |} in
          match carrega_cabecalho hoje json_data s1 with
          | (s2, Levanta e) => (s2, [], Levanta e)
          | (s2, Retorna _) =>
              match carrega_tipo json_data s2 with
              | (s3, msgs, Levanta e) => (s3, msgs, Levanta e)
              | (s3, msgs, Retorna _) =>
                  match py_len (su_avulsa_cell_data s3) with
                  | Levanta e => (s3, msgs, Levanta e)
                  | Retorna n =>
                      ({| su_process_avulsa_json_flag :=
                            su_process_avulsa_json_flag s3;
                          su_uploaded_avulsa_json_string := None;
                          su_avulsa_cell_data := su_avulsa_cell_data s3;
                          su_data_geracao_relatorio :=
                            su_data_geracao_relatorio s3;
                          su_nome_tecnico := su_nome_tecnico s3;
                          su_selected_cell_type_avulsa :=
                            su_selected_cell_type_avulsa s3;
                          su_run_avulsa_analysis := Some false |},
                       msgs ++ [MsgSucesso n], Retorna true)
                  end
              end
          end
      end
  end.

(** Lines 1038-1076: the processing of an uploaded file, with its three
    [except] arms. *)
Definition carregar_json (hoje : data) (s : sessao_upload)
  : sessao_upload * list mensagem * bool :=
  match su_process_avulsa_json_flag s, su_uploaded_avulsa_json_string s with
  | true, Some texto =>
      let s0 :=
        {| su_process_avulsa_json_flag := false;
           su_uploaded_avulsa_json_string :=
             su_uploaded_avulsa_json_string s;
           su_avulsa_cell_data := su_avulsa_cell_data s;
           su_data_geracao_relatorio := su_data_geracao_relatorio s;
           su_nome_tecnico := su_nome_tecnico s;
           su_selected_cell_type_avulsa := su_selected_cell_type_avulsa s;
           su_run_avulsa_analysis := su_run_avulsa_analysis s |} in
      match loads texto with
      | None => (limpa_string s0, [MsgJSONInvalido], false)
      | Some json_data =>
          match corpo_carregar hoje json_data s0 with
          | (s', msgs, Retorna rerun) => (s', msgs, rerun)
          | (s', msgs, Levanta e) =>
              (limpa_string s', msgs ++ [MsgErroInesperado e], false)
          end
      end
  | _, _ => (s, [], false)
  end.

End CarregarJSON.

Arguments VData {data}.
Arguments VJson {data}.
Arguments su_process_avulsa_json_flag {data}.
Arguments su_uploaded_avulsa_json_string {data}.
Arguments su_avulsa_cell_data {data}.
Arguments su_data_geracao_relatorio {data}.
Arguments su_nome_tecnico {data}.
Arguments su_selected_cell_type_avulsa {data}.
Arguments su_run_avulsa_analysis {data}.
Arguments limpa_string {data}.
Arguments carrega_cabecalho {data}.
Arguments carrega_tipo {data}.
Arguments corpo_carregar {data}.
Arguments carregar_json loads {data}.

(** What a step of the loading leaves alone. *)
Definition mesmo_pedido {data : Type} (s s' : sessao_upload data) : Prop :=
  su_process_avulsa_json_flag s' = su_process_avulsa_json_flag s
  /\ su_uploaded_avulsa_json_string s' = su_uploaded_avulsa_json_string s
  /\ su_avulsa_cell_data s' = su_avulsa_cell_data s.

(** The selected cell type is kept, or is one of the two registered
    keys. *)
Definition tipo_valido {data : Type} (s s' : sessao_upload data) : Prop :=
  su_selected_cell_type_avulsa s' = su_selected_cell_type_avulsa s
  \/ su_selected_cell_type_avulsa s' = "Sony"%string
  \/ su_selected_cell_type_avulsa s' = "Panasonic"%string.

(** The table of cells after the body of the [try]: the value under the
    key of the results when the file decodes to an object that has it,
    the table of the session otherwise. *)
Definition celulas_do_arquivo (json_data : json) (antes : json) : json :=
  match json_data with
  | JObj campos =>
      match procura "individual_cell_results" campos with
      | Retorna v => v
      | Levanta _ => antes
      end
  | _ => antes
  end.

(** ** 12. The file of loose cells that the page offers *)




(** * Properties *)

(** ** Numbers *)

Lemma Qltb_spec (a b : Q) : reflect (a < b) (a <? b).
Proof.
  unfold Qltb. destruct (Qlt_le_dec a b) as [H | H]; constructor.
  - exact H.
  - apply Qle_not_lt. exact H.
Qed.

Lemma Qltb_true (a b : Q) : (a <? b) = true <-> a < b.
Proof. destruct (Qltb_spec a b); split; intros; auto; discriminate. Qed.

Lemma Qltb_false (a b : Q) : (a <? b) = false <-> b <= a.
Proof.
  destruct (Qltb_spec a b) as [H | H]; split; intros H'; auto.
  - discriminate.
  - exfalso. apply (Qle_not_lt _ _ H' H).
  - apply Qnot_lt_le. exact H.
Qed.

(** Case analysis on every comparison that occurs in the goal. *)
Ltac compara :=
  unfold Qgtb, Qgeb in *;
  repeat match goal with
         | |- context [Qltb ?a ?b] =>
             let H := fresh "Hc" in
             destruct (Qltb_spec a b) as [H | H];
             [ | apply Qnot_lt_le in H ]
         end.

Lemma truediv_retorna (a b : Q) :
  ~ b == 0 -> truediv a b = Retorna (a / b).
Proof.
  intros Hb. unfold truediv.
  destruct (Qeq_bool b 0) eqn:E; [ | reflexivity ].
  apply Qeq_bool_iff in E. contradiction.
Qed.

(** ** Pack specification *)


Lemma fator_serie_positivo (n : Z) : (0 < n)%Z -> 0 < inject_Z n.
Proof.
  intros Hn. change 0 with (inject_Z 0). rewrite <- Zlt_Qlt. exact Hn.
Qed.







(** ** The rule blocks of the cell evaluation *)

Lemma escala_motivos (s : status) (m : string) (e : estado) :
  st_motivos (escala s m e) <> [].
Proof.
  cbn. destruct (st_motivos e); discriminate.
Qed.

Lemma passo_justificado (e e' : estado) :
  passo e e' -> justificado e -> justificado e'.
Proof.
  intros [ | s m _] He.
  - exact He.
  - right. apply escala_motivos.
Qed.

Ltac ramos :=
  repeat match goal with
         | |- context [if ?b then _ else _] => destruct b
         end;
  first [ apply passo_nada | apply passo_escala; discriminate ].

Lemma passo_avalia_ocv_absoluta (ocv : Q) (c : CellSpec) (e : estado) :
  passo e (avalia_ocv_absoluta ocv c e).
Proof. unfold avalia_ocv_absoluta. ramos. Qed.

Lemma passo_avalia_ocv_desvio (ocv : Q) (ocv_media : option Q)
    (is_avulsa : bool) (e : estado) :
  passo e (avalia_ocv_desvio ocv ocv_media is_avulsa e).
Proof.
  unfold avalia_ocv_desvio.
  destruct is_avulsa, ocv_media as [media | ]; cbn [negb]; ramos.
Qed.

Lemma passo_avalia_ir_absoluta (ir : Q) (e : estado) :
  passo e (avalia_ir_absoluta ir e).
Proof. unfold avalia_ir_absoluta. ramos. Qed.

(** The percentage block divides only by a positive mean: it returns. *)
Lemma avalia_ir_desvio_retorna (ir : Q) (ir_media : option Q)
    (is_avulsa : bool) (e : estado) :
  exists e', avalia_ir_desvio ir ir_media is_avulsa e = Retorna e'
             /\ passo e e'
             /\ status_pack_ordem (st_status e')
                = Nat.max (status_pack_ordem (st_status e))
                    (status_pack_ordem (sev_ir_desvio ir ir_media is_avulsa)).
Proof.
  assert (Hnada : exists e', Retorna e = Retorna e' /\ passo e e'
            /\ status_pack_ordem (st_status e')
               = Nat.max (status_pack_ordem (st_status e))
                   (status_pack_ordem Bom)).
  { exists e. split; [ reflexivity | ]. split; [ apply passo_nada | ].
    cbn [status_pack_ordem]. lia. }
  unfold avalia_ir_desvio, sev_ir_desvio, sev_pct.
  destruct is_avulsa, ir_media as [media | ]; cbn [negb]; try exact Hnada.
  destruct (media >? 0) eqn:Epos; [ | exact Hnada ].
  apply Qltb_true in Epos.
  rewrite truediv_retorna by lra. cbn [bind].
  set (pct := (ir - media) / media * 100).
  destruct (pct >? IR_PCT_DIFF_LIMIAR_RUIM);
    [ | destruct (pct >? IR_PCT_DIFF_LIMIAR_MONITOR) ];
    destruct e as [[ | | | ] ms]; cbn;
    eexists; (split; [ reflexivity | ]);
    (split; [ first [ apply passo_nada
                    | apply (passo_escala _ Ruim); discriminate
                    | apply (passo_escala _ Monitorar); discriminate ]
            | reflexivity ]).
Qed.

(** Each block merges its own severity into the status by maximum. *)
Ltac ordem_max :=
  repeat match goal with
         | |- context [Qltb ?a ?b] => destruct (Qltb a b)
         end;
  match goal with
  | e : estado |- _ => destruct e as [[ | | | ] ?]
  end;
  reflexivity.

Lemma ordem_avalia_ocv_absoluta (ocv : Q) (c : CellSpec) (e : estado) :
  status_pack_ordem (st_status (avalia_ocv_absoluta ocv c e))
  = Nat.max (status_pack_ordem (st_status e))
      (status_pack_ordem (sev_ocv_absoluta ocv c)).
Proof. unfold avalia_ocv_absoluta, sev_ocv_absoluta. ordem_max. Qed.

Lemma ordem_avalia_ocv_desvio (ocv : Q) (ocv_media : option Q)
    (is_avulsa : bool) (e : estado) :
  status_pack_ordem (st_status (avalia_ocv_desvio ocv ocv_media is_avulsa e))
  = Nat.max (status_pack_ordem (st_status e))
      (status_pack_ordem (sev_ocv_desvio ocv ocv_media is_avulsa)).
Proof.
  unfold avalia_ocv_desvio, sev_ocv_desvio, sev_desvio, Qgtb.
  destruct is_avulsa, ocv_media as [media | ]; cbn [negb]; ordem_max.
Qed.

Lemma ordem_avalia_ir_absoluta (ir : Q) (e : estado) :
  status_pack_ordem (st_status (avalia_ir_absoluta ir e))
  = Nat.max (status_pack_ordem (st_status e))
      (status_pack_ordem (sev_ir_absoluta ir)).
Proof.
  unfold avalia_ir_absoluta, sev_ir_absoluta, Qgeb, Qgtb.
  unfold IR_LIMIAR_MONITOR_MAX, IR_LIMIAR_RUIM_MIN.
  ordem_max.
Qed.

Lemma motivo_padrao_status (e : estado) :
  st_status (motivo_padrao e) = st_status e.
Proof.
  unfold motivo_padrao.
  destruct (st_motivos e); [ | reflexivity ].
  destruct (status_eqb (st_status e) Bom); reflexivity.
Qed.

Lemma motivo_padrao_motivos (e : estado) :
  justificado e -> st_motivos (motivo_padrao e) <> [].
Proof.
  intros He. unfold motivo_padrao.
  destruct (st_motivos e) as [ | m ms] eqn:Em.
  - destruct He as [Hbom | Hmot]; [ | contradiction ].
    rewrite Hbom. cbn. discriminate.
  - rewrite Em. discriminate.
Qed.

(** The whole evaluation: it returns, with at least one reason, and its
    status is the maximum of the four rule severities. *)
Lemma avaliar_celula_estado_retorna (ocv ir : Q) (c : CellSpec)
    (ocv_media ir_media : option Q) (is_avulsa : bool) :
  exists e,
    avaliar_celula_estado ocv ir c ocv_media ir_media is_avulsa = Retorna e
    /\ st_motivos e <> []
    /\ status_pack_ordem (st_status e)
       = Nat.max
           (Nat.max
              (Nat.max (status_pack_ordem (sev_ocv_absoluta ocv c))
                 (status_pack_ordem
                    (sev_ocv_desvio ocv ocv_media is_avulsa)))
              (status_pack_ordem (sev_ir_absoluta ir)))
           (status_pack_ordem (sev_ir_desvio ir ir_media is_avulsa)).
Proof.
  unfold avaliar_celula_estado.
  set (e1 := avalia_ocv_absoluta ocv c estado_inicial).
  set (e2 := avalia_ocv_desvio ocv ocv_media is_avulsa e1).
  set (e3 := avalia_ir_absoluta ir e2).
  destruct (avalia_ir_desvio_retorna ir ir_media is_avulsa e3)
    as (e4 & -> & Hp4 & Ho4).
  cbn [bind]. eexists. split; [ reflexivity | ]. split.
  - apply motivo_padrao_motivos.
    apply (passo_justificado e3); [ exact Hp4 | ].
    apply (passo_justificado e2); [ apply passo_avalia_ir_absoluta | ].
    apply (passo_justificado e1); [ apply passo_avalia_ocv_desvio | ].
    apply (passo_justificado estado_inicial);
      [ apply passo_avalia_ocv_absoluta | ].
    left. reflexivity.
  - rewrite motivo_padrao_status, Ho4. subst e3.
    rewrite ordem_avalia_ir_absoluta. subst e2.
    rewrite ordem_avalia_ocv_desvio. subst e1.
    rewrite ordem_avalia_ocv_absoluta. reflexivity.
Qed.

Lemma avaliar_celula_individual_estado (ocv ir : Q) (c : CellSpec)
    (ocv_media ir_media : option Q) (is_avulsa : bool) (e : estado) :
  avaliar_celula_estado ocv ir c ocv_media ir_media is_avulsa = Retorna e ->
  avaliar_celula_individual ocv ir c ocv_media ir_media is_avulsa
  = Retorna (st_status e, junta_motivos (st_motivos e)).
Proof. unfold avaliar_celula_individual. intros ->. reflexivity. Qed.

(** C10.  For every input the cell evaluation returns with at least one
    reason, so that the text it returns is the join of its reasons and
    never the fallback of the return line. *)
Theorem sempre_ha_motivo (ocv ir : Q) (c : CellSpec)
    (ocv_media ir_media : option Q) (is_avulsa : bool) :
  exists (s : status) (m : string) (ms : list string),
    avaliar_celula_estado ocv ir c ocv_media ir_media is_avulsa
    = Retorna {| st_status := s; st_motivos := m :: ms |}
    /\ avaliar_celula_individual ocv ir c ocv_media ir_media is_avulsa
       = Retorna (s, String.concat "; " (m :: ms)).
Proof.
  destruct (avaliar_celula_estado_retorna ocv ir c ocv_media ir_media
              is_avulsa) as ([s [ | m ms]] & He & Hm & _).
  - contradiction Hm. reflexivity.
  - exists s, m, ms. split; [ exact He | ].
    rewrite (avaliar_celula_individual_estado _ _ _ _ _ _ _ He).
    reflexivity.
Qed.

(** ** Standalone cells *)

(** Settles every comparison of the goal that linear arithmetic decides
    from the context. *)
Ltac decide_comparacoes :=
  unfold Qgtb, Qgeb;
  repeat match goal with
         | |- context [Qltb ?a ?b] =>
             first
               [ replace (Qltb a b) with true
                   by (symmetry; apply Qltb_true; lra)
               | replace (Qltb a b) with false
                   by (symmetry; apply Qltb_false; lra) ]
         end.

Ltac limiares :=
  unfold OCV_DIFF_LIMIAR_MONITOR, OCV_DIFF_LIMIAR_RUIM,
    OCV_ABSOLUTO_LIMIAR_RUIM, IR_LIMIAR_BOM_MAX, IR_LIMIAR_MONITOR_MAX,
    IR_LIMIAR_RUIM_MIN, IR_PCT_DIFF_LIMIAR_MONITOR, IR_PCT_DIFF_LIMIAR_RUIM
    in *.




(** ** Partial baselines *)

Lemma desvio_nulo (x : Q) : Qabs (x - x) <= 0.
Proof. apply Qabs_Qle_condition. split; lra. Qed.

Lemma pct_nulo (x : Q) : 0 < x -> (x - x) / x * 100 == 0.
Proof. intros Hx. field. lra. Qed.

Lemma avaliar_celula_individual_retorna (ocv ir : Q) (c : CellSpec)
    (ocv_media ir_media : option Q) (is_avulsa : bool) :
  ~ falha (avaliar_celula_individual ocv ir c ocv_media ir_media is_avulsa).
Proof.
  destruct (avaliar_celula_estado_retorna ocv ir c ocv_media ir_media
              is_avulsa) as (e & He & _).
  rewrite (avaliar_celula_individual_estado _ _ _ _ _ _ _ He).
  intros [x Hx]. discriminate Hx.
Qed.

(** C4, as amended.  With [is_avulsa=False] and only one pack mean
    supplied the evaluation does not fail and each deviation check is
    gated on its own mean alone: the check whose mean is present is
    applied, the other is skipped, so that the result is the one of a
    full evaluation in which the cell sits exactly at the absent mean. *)
Theorem media_parcial (ocv ir : Q) (c : CellSpec) (media : Q) :
  (~ falha (avaliar_celula_individual ocv ir c (Some media) None false)
   /\ avaliar_celula_individual ocv ir c (Some media) None false
      = avaliar_celula_individual ocv ir c (Some media) (Some ir) false)
  /\ (~ falha (avaliar_celula_individual ocv ir c None (Some media) false)
      /\ avaliar_celula_individual ocv ir c None (Some media) false
         = avaliar_celula_individual ocv ir c (Some ocv) (Some media) false).
Proof.
  split; (split; [ apply avaliar_celula_individual_retorna | ]).
  - unfold avaliar_celula_individual, avaliar_celula_estado.
    set (e3 := avalia_ir_absoluta ir _).
    unfold avalia_ir_desvio at 2. cbn [negb].
    destruct (ir >? 0) eqn:Epos; [ | reflexivity ].
    apply Qltb_true in Epos.
    rewrite truediv_retorna by lra. cbn [bind].
    pose proof (pct_nulo ir Epos) as Hz.
    limiares. unfold Qdiv in Hz. unfold Qdiv.
    decide_comparacoes. reflexivity.
  - unfold avaliar_celula_individual, avaliar_celula_estado.
    unfold avalia_ocv_desvio at 2. cbn [negb].
    pose proof (desvio_nulo ocv) as Hz.
    limiares. decide_comparacoes. reflexivity.
Qed.

(** C4, as stated, fails: with the voltage mean absent and the resistance
    mean present the percentage check alone is applied (60% above a mean
    of 10 mOhm), and symmetrically for the voltage check. *)
Lemma media_parcial_aplicada :
  avaliar_celula_individual 4.00 16.00 Sony None (Some 10.00) false
  = Retorna (Ruim,
      "IR com alto desvio percentual da média do pack (60.0%). Sinal de degradação acentuada."%string)
  /\ avaliar_celula_individual 4.00 16.00 Sony (Some 4.25) None false
     = Retorna (Ruim,
         "OCV com alto desvio da média do pack (0.25V). Indica forte desbalanceamento."%string)
  /\ avaliar_celula_individual 4.00 16.00 Sony None None false
     = Retorna (Bom, msg_dentro)
  /\ ~ (falha (avaliar_celula_individual 4.00 16.00 Sony None (Some 10.00)
                 false)
        \/ avaliar_celula_individual 4.00 16.00 Sony None (Some 10.00) false
           = avaliar_celula_individual 4.00 16.00 Sony None None false).
Proof.
  split; [ vm_compute; reflexivity | ].
  split; [ vm_compute; reflexivity | ].
  split; [ vm_compute; reflexivity | ].
  intros [[e He] | H]; vm_compute in *; discriminate.
Qed.

(** ** The absolute resistance check *)

(** C2, as amended.  On a status that is still [Bom] after the voltage
    checks, the absolute resistance check raises [ir >= 30] to [Ruim],
    raises [20 < ir < 30] to [Monitorar] with the reason that the
    resistance is a little above the ideal, and leaves [ir <= 20], the
    value 20 included, at [Bom] with no reason added: at most one of its
    branches fires and it adds at most one reason. *)
Theorem ir_absoluta_sobre_bom (ir : Q) (e : estado) :
  st_status e = Bom ->
  (30.00 <= ir ->
   avalia_ir_absoluta ir e = escala Ruim (msg_ir_muito_alta ir) e)
  /\ (20.00 < ir -> ir < 30.00 ->
      avalia_ir_absoluta ir e
      = escala Monitorar (msg_ir_acima_do_ideal ir) e)
  /\ (ir <= 20.00 -> avalia_ir_absoluta ir e = e).
Proof.
  intros Hbom. unfold avalia_ir_absoluta, critico_ou_ruim. rewrite Hbom.
  cbn [status_eqb orb negb]. limiares.
  repeat split; intros; decide_comparacoes; reflexivity.
Qed.

Lemma ir_absoluta_sobre_bom_exemplos :
  avalia_ir_absoluta 35.00 estado_inicial
  = escala Ruim (msg_ir_muito_alta 35.00) estado_inicial
  /\ avalia_ir_absoluta 25.00 estado_inicial
     = escala Monitorar (msg_ir_acima_do_ideal 25.00) estado_inicial
  /\ avalia_ir_absoluta 20.00 estado_inicial = estado_inicial.
Proof.
  split; [ | split ].
  - apply (ir_absoluta_sobre_bom 35.00 estado_inicial eq_refl).
    vm_compute. discriminate.
  - apply (ir_absoluta_sobre_bom 25.00 estado_inicial eq_refl);
      vm_compute; reflexivity.
  - apply (ir_absoluta_sobre_bom 20.00 estado_inicial eq_refl).
    vm_compute. discriminate.
Defined.

(** C2, as stated, fails at both ends of its middle branch: a resistance
    of exactly 20 mOhm leaves a good cell [Bom], and one of 25 mOhm gets
    the "a little above the ideal" reason, not the "moderate" one. *)
Lemma ir_de_20_a_30 :
  20.00 <= 20.00 /\ 20.00 < 30.00 /\ 20.00 <= 25.00 /\ 25.00 < 30.00
  /\ avaliar_celula_individual 3.70 20.00 Sony None None true
     = Retorna (Bom, "Dentro dos parâmetros esperados."%string)
  /\ avaliar_celula_individual 3.70 25.00 Sony None None true
     = Retorna (Monitorar,
         "IR um pouco acima do ideal (25.00 mOhm). Pode ser sinal de envelhecimento."%string)
  /\ (forall r,
        avaliar_celula_individual 3.70 25.00 Sony None None true = Retorna r ->
        menciona "IR moderada" (snd r) = false).
Proof.
  repeat (split; [ vm_compute; first [ reflexivity | discriminate ] | ]).
  intros r Hr. vm_compute in Hr. injection Hr as <-. vm_compute. reflexivity.
Qed.

(** ** Monotonicity of the severity *)






Lemma ordem_avaliar_celula_individual (ocv ir : Q) (c : CellSpec)
    (ocv_media ir_media : option Q) (is_avulsa : bool) :
  ordem_resultado
    (avaliar_celula_individual ocv ir c ocv_media ir_media is_avulsa)
  = Some
      (Nat.max
         (Nat.max
            (Nat.max (status_pack_ordem (sev_ocv_absoluta ocv c))
               (status_pack_ordem (sev_ocv_desvio ocv ocv_media is_avulsa)))
            (status_pack_ordem (sev_ir_absoluta ir)))
         (status_pack_ordem (sev_ir_desvio ir ir_media is_avulsa))).
Proof.
  destruct (avaliar_celula_estado_retorna ocv ir c ocv_media ir_media
              is_avulsa) as (e & He & _ & Ho).
  rewrite (avaliar_celula_individual_estado _ _ _ _ _ _ _ He).
  cbn [ordem_resultado]. rewrite Ho. reflexivity.
Qed.




(** ** The total pack voltage *)

Lemma avaliar_celulas_retorna (celulas : list (Q * Q)) (spec : CellSpec)
    (ocv_media ir_media : Q) :
  exists rs, avaliar_celulas celulas spec ocv_media ir_media = Retorna rs
             /\ List.length rs = List.length celulas.
Proof.
  induction celulas as [ | [ocv ir] resto IH]; cbn [avaliar_celulas].
  - exists []. split; reflexivity.
  - destruct IH as (rs & -> & Hlen).
    destruct (avaliar_celula_estado_retorna ocv ir spec (Some ocv_media)
                (Some ir_media) false) as (e & He & _).
    rewrite (avaliar_celula_individual_estado _ _ _ _ _ _ _ He).
    cbn [bind]. eexists. split; [ reflexivity | ].
    cbn [List.length]. rewrite Hlen. reflexivity.
Qed.

Lemma ordem_pior (a b : status) :
  status_pack_ordem (pior a b)
  = Nat.max (status_pack_ordem a) (status_pack_ordem b).
Proof. destruct a, b; reflexivity. Qed.

Lemma pior_Critico (s : status) : pior Critico s = Critico.
Proof. destruct s; reflexivity. Qed.

Lemma status_pack_geral_base_Critico (status_celulas : list status) :
  status_pack_geral_base Critico status_celulas = Critico.
Proof.
  unfold status_pack_geral_base.
  induction status_celulas as [ | s resto IH]; cbn [fold_left].
  - reflexivity.
  - rewrite pior_Critico. exact IH.
Qed.


(** ** The overall status *)

Lemma maior_ordem_cons (v s : status) (l : list status) :
  maior_ordem (pior v s) l = Nat.max (status_pack_ordem s) (maior_ordem v l).
Proof.
  unfold maior_ordem. rewrite ordem_pior.
  induction l as [ | a l IH]; cbn [map fold_right].
  - apply Nat.max_comm.
  - rewrite IH. lia.
Qed.

Lemma ordem_status_pack_geral_base (v : status) (l : list status) :
  status_pack_ordem (status_pack_geral_base v l) = maior_ordem v l.
Proof.
  unfold status_pack_geral_base. revert v.
  induction l as [ | s l IH]; intros v; cbn [fold_left].
  - reflexivity.
  - rewrite IH, maior_ordem_cons. reflexivity.
Qed.

Lemma maior_ordem_permutacao (v : status) (l l' : list status) :
  Permutation l l' -> maior_ordem v l = maior_ordem v l'.
Proof.
  unfold maior_ordem.
  induction 1 as [ | a l l' _ IH | a b l | l l' l'' _ IH1 _ IH2 ];
    cbn [map fold_right].
  - reflexivity.
  - rewrite IH. reflexivity.
  - lia.
  - rewrite IH1. exact IH2.
Qed.

Lemma status_pack_ordem_injetiva (a b : status) :
  status_pack_ordem a = status_pack_ordem b -> a = b.
Proof. destruct a, b; cbn; intros H; first [ reflexivity | discriminate H ]. Qed.

Lemma status_pack_geral_base_pertence (v : status) (l : list status) :
  In (status_pack_geral_base v l) (v :: l).
Proof.
  unfold status_pack_geral_base. revert v.
  induction l as [ | s l IH]; intros v; cbn [fold_left].
  - left. reflexivity.
  - destruct (IH (pior v s)) as [H | H].
    + rewrite <- H. unfold pior.
      destruct (status_pack_ordem v <? status_pack_ordem s)%nat.
      * right. left. reflexivity.
      * left. reflexivity.
    + right. right. exact H.
Qed.

(** C7.  The overall status of a pack is the most severe, in the order
    Bom(0) < Monitorar(1) < Ruim(2) < Critico(3), of the status of the
    total voltage and the statuses of the cells: it is one of them and
    its rank is the largest; permuting the cell statuses does not change
    it. *)
Theorem status_geral_maximo (v : status) (l : list status) :
  status_pack_ordem (status_pack_geral_base v l) = maior_ordem v l
  /\ In (status_pack_geral_base v l) (v :: l)
  /\ (forall s, In s (v :: l) ->
        (status_pack_ordem s
         <= status_pack_ordem (status_pack_geral_base v l))%nat)
  /\ (forall l', Permutation l l' ->
        status_pack_geral_base v l' = status_pack_geral_base v l).
Proof.
  split; [ apply ordem_status_pack_geral_base | ].
  split; [ apply status_pack_geral_base_pertence | ].
  split.
  - intros s Hs. rewrite ordem_status_pack_geral_base.
    unfold maior_ordem. destruct Hs as [<- | Hs].
    + induction l as [ | a l IH]; cbn [map fold_right]; lia.
    + induction l as [ | a l IH]; [ contradiction | ].
      cbn [map fold_right]. destruct Hs as [<- | Hs].
      * lia.
      * specialize (IH Hs). lia.
  - intros l' Hperm. apply status_pack_ordem_injetiva.
    rewrite !ordem_status_pack_geral_base.
    symmetry. apply maior_ordem_permutacao. exact Hperm.
Qed.

Lemma status_geral_maximo_exemplo :
  status_pack_geral_base Bom [Ruim; Monitorar; Critico]
  = status_pack_geral_base Bom [Monitorar; Critico; Ruim]
  /\ status_pack_geral_base Bom [Monitorar; Critico; Ruim] = Critico.
Proof.
  split.
  - apply (status_geral_maximo Bom [Monitorar; Critico; Ruim]).
    apply Permutation_sym.
    exact (Permutation_cons_append [Monitorar; Critico] Ruim).
  - reflexivity.
Defined.

(** ** Scenario A: one cell at exactly 3.00 V *)

(** The reason of the absolute low-voltage rule is the one that asks for
    an urgent recharge. *)
Lemma msg_ocv_baixa_recarga_urgente :
  msg_ocv_baixa = "OCV baixa (< 3.00V). Requer recarga urgente."%string
  /\ menciona "recarga urgente" msg_ocv_baixa = true.
Proof. split; vm_compute; reflexivity. Qed.

(** Once the status is [Ruim] the two resistance checks add nothing. *)
Lemma ruim_permanece_ir_absoluta (ir : Q) (ms : list string) :
  avalia_ir_absoluta ir {| st_status := Ruim; st_motivos := ms |}
  = {| st_status := Ruim; st_motivos := ms |}.
Proof.
  unfold avalia_ir_absoluta.
  cbn [st_status critico_ou_ruim status_eqb orb negb].
  repeat match goal with
         | |- context [if ?b then _ else _] => destruct b
         end; reflexivity.
Qed.

Lemma ruim_permanece_ir_desvio (ir : Q) (ir_media : option Q)
    (is_avulsa : bool) (ms : list string) :
  avalia_ir_desvio ir ir_media is_avulsa
    {| st_status := Ruim; st_motivos := ms |}
  = Retorna {| st_status := Ruim; st_motivos := ms |}.
Proof.
  unfold avalia_ir_desvio.
  destruct is_avulsa, ir_media as [media | ]; cbn [negb]; try reflexivity.
  destruct (media >? 0) eqn:Epos; [ | reflexivity ].
  apply Qltb_true in Epos. rewrite truediv_retorna by lra.
  cbn [bind st_status critico_ou_ruim status_eqb orb negb].
  repeat match goal with
         | |- context [if ?b then _ else _] => destruct b
         end; reflexivity.
Qed.

(** Against the mean of 4.10 V the cell at 3.00 V is [Ruim] by its
    deviation alone, whatever its resistance and the resistance mean. *)
Lemma celula_3V_no_cenario_A (ir : Q) (ir_media : option Q) :
  avaliar_celula_individual 3.00 ir Sony (Some 4.10) ir_media false
  = Retorna (Ruim, msg_ocv_desvio_alto 1.10).
Proof.
  unfold avaliar_celula_individual, avaliar_celula_estado.
  replace (avalia_ocv_desvio 3.00 (Some 4.10) false
             (avalia_ocv_absoluta 3.00 Sony estado_inicial))
    with {| st_status := Ruim; st_motivos := [msg_ocv_desvio_alto 1.10] |}
    by (vm_compute; reflexivity).
  rewrite ruim_permanece_ir_absoluta, ruim_permanece_ir_desvio.
  reflexivity.
Qed.

(** Against the same mean a cell at 4.20 V is never [Bom]. *)
Lemma celula_4V2_no_cenario_A (ir : Q) (ir_media : option Q) :
  exists n,
    ordem_resultado
      (avaliar_celula_individual 4.20 ir Sony (Some 4.10) ir_media false)
    = Some n
    /\ (1 <= n)%nat.
Proof.
  rewrite ordem_avaliar_celula_individual. eexists. split; [ reflexivity | ].
  replace (status_pack_ordem (sev_ocv_desvio 4.20 (Some 4.10) false))
    with 1%nat by (vm_compute; reflexivity).
  lia.
Qed.





(** * Further properties of the evaluation code *)

(** ** A critical cell *)

Ltac reduz_status :=
  cbn [st_status critico_ou_ruim status_eqb orb negb].

Ltac todos_os_ramos :=
  repeat match goal with
         | |- context [if ?b then _ else _] => destruct b
         end.

(** Once the status is [Critico] no later block touches the locals. *)
Lemma critico_permanece_ocv_desvio (ocv : Q) (ocv_media : option Q)
    (is_avulsa : bool) (ms : list string) :
  avalia_ocv_desvio ocv ocv_media is_avulsa
    {| st_status := Critico; st_motivos := ms |}
  = {| st_status := Critico; st_motivos := ms |}.
Proof.
  unfold avalia_ocv_desvio.
  destruct is_avulsa, ocv_media as [media | ]; reduz_status;
    todos_os_ramos; reflexivity.
Qed.

Lemma critico_permanece_ir_absoluta (ir : Q) (ms : list string) :
  avalia_ir_absoluta ir {| st_status := Critico; st_motivos := ms |}
  = {| st_status := Critico; st_motivos := ms |}.
Proof.
  unfold avalia_ir_absoluta. reduz_status. todos_os_ramos; reflexivity.
Qed.

Lemma critico_permanece_ir_desvio (ir : Q) (ir_media : option Q)
    (is_avulsa : bool) (ms : list string) :
  avalia_ir_desvio ir ir_media is_avulsa
    {| st_status := Critico; st_motivos := ms |}
  = Retorna {| st_status := Critico; st_motivos := ms |}.
Proof.
  unfold avalia_ir_desvio.
  destruct is_avulsa, ir_media as [media | ]; cbn [negb]; try reflexivity.
  destruct (media >? 0) eqn:Epos; [ | reflexivity ].
  apply Qltb_true in Epos. rewrite truediv_retorna by lra.
  cbn [bind]. reduz_status. todos_os_ramos; reflexivity.
Qed.

Lemma abaixo_do_corte_critico (ocv ir : Q) (c : CellSpec)
    (ocv_media ir_media : option Q) (is_avulsa : bool) :
  ocv < TENSAO_CORTE c ->
  avaliar_celula_individual ocv ir c ocv_media ir_media is_avulsa
  = Retorna (Critico, msg_ocv_muito_baixa c).
Proof.
  intros H. unfold avaliar_celula_individual, avaliar_celula_estado.
  unfold avalia_ocv_absoluta.
  replace (ocv <? TENSAO_CORTE c) with true
    by (symmetry; apply Qltb_true; exact H).
  unfold escala, estado_inicial. cbn [st_motivos app].
  rewrite critico_permanece_ocv_desvio, critico_permanece_ir_absoluta,
    critico_permanece_ir_desvio.
  reflexivity.
Qed.

Lemma ordem_sev_desvio (d : Q) : (status_pack_ordem (sev_desvio d) <= 2)%nat.
Proof. unfold sev_desvio. todos_os_ramos; cbn; lia. Qed.

Lemma ordem_sev_ocv_desvio (ocv : Q) (ocv_media : option Q)
    (is_avulsa : bool) :
  (status_pack_ordem (sev_ocv_desvio ocv ocv_media is_avulsa) <= 2)%nat.
Proof.
  unfold sev_ocv_desvio.
  destruct is_avulsa, ocv_media; try (cbn; lia). apply ordem_sev_desvio.
Qed.

Lemma ordem_sev_ir_absoluta (ir : Q) :
  (status_pack_ordem (sev_ir_absoluta ir) <= 2)%nat.
Proof. unfold sev_ir_absoluta. todos_os_ramos; cbn; lia. Qed.

Lemma ordem_sev_ir_desvio (ir : Q) (ir_media : option Q) (is_avulsa : bool) :
  (status_pack_ordem (sev_ir_desvio ir ir_media is_avulsa) <= 2)%nat.
Proof.
  unfold sev_ir_desvio, sev_pct.
  destruct is_avulsa, ir_media; try (cbn; lia).
  todos_os_ramos; cbn; lia.
Qed.

Lemma acima_do_corte_nao_critico (ocv ir : Q) (c : CellSpec)
    (ocv_media ir_media : option Q) (is_avulsa : bool) :
  TENSAO_CORTE c <= ocv ->
  exists s texto,
    avaliar_celula_individual ocv ir c ocv_media ir_media is_avulsa
    = Retorna (s, texto)
    /\ s <> Critico.
Proof.
  intros Hge.
  pose proof (ordem_avaliar_celula_individual ocv ir c ocv_media ir_media
                is_avulsa) as Ho.
  destruct (avaliar_celula_individual ocv ir c ocv_media ir_media
              is_avulsa) as [[s texto] | x]; [ | discriminate Ho ].
  exists s, texto. split; [ reflexivity | ].
  cbn [ordem_resultado] in Ho. injection Ho as Ho.
  assert (Ha : (status_pack_ordem (sev_ocv_absoluta ocv c) <= 2)%nat).
  { unfold sev_ocv_absoluta.
    replace (ocv <? TENSAO_CORTE c) with false
      by (symmetry; apply Qltb_false; exact Hge).
    todos_os_ramos; cbn; lia. }
  pose proof (ordem_sev_ocv_desvio ocv ocv_media is_avulsa).
  pose proof (ordem_sev_ir_absoluta ir).
  pose proof (ordem_sev_ir_desvio ir ir_media is_avulsa).
  intros ->. cbn [status_pack_ordem] in Ho. lia.
Qed.

(** X1.  The cell evaluation returns [Critico] exactly when the voltage
    is under the cut-off of the model, and then its text is the single
    cut-off reason: nothing about the resistance or the deviations of a
    critical cell is reported. *)
Theorem critico_sse_abaixo_do_corte (ocv ir : Q) (c : CellSpec)
    (ocv_media ir_media : option Q) (is_avulsa : bool) :
  exists s texto,
    avaliar_celula_individual ocv ir c ocv_media ir_media is_avulsa
    = Retorna (s, texto)
    /\ (s = Critico <-> ocv < TENSAO_CORTE c)
    /\ (s = Critico -> texto = msg_ocv_muito_baixa c).
Proof.
  destruct (Qlt_le_dec ocv (TENSAO_CORTE c)) as [Hlt | Hge].
  - exists Critico, (msg_ocv_muito_baixa c).
    split; [ apply abaixo_do_corte_critico; exact Hlt | ].
    split; [ split; intros; [ exact Hlt | reflexivity ] | reflexivity ].
  - destruct (acima_do_corte_nao_critico ocv ir c ocv_media ir_media
                is_avulsa Hge) as (s & texto & He & Hs).
    exists s, texto. split; [ exact He | ].
    split; [ split; [ intros; contradiction | ] | intros; contradiction ].
    intros Hlt. exfalso. apply (Qle_not_lt _ _ Hge Hlt).
Qed.

(** ** The number of reasons *)

Lemma sobe_passo (e e' : estado) : sobe e e' -> passo e e'.
Proof.
  intros [-> | (s & m & Hs & ->)].
  - apply passo_nada.
  - apply passo_escala. intros ->. cbn in Hs. lia.
Qed.

Lemma sobe_contado (e e' : estado) : sobe e e' -> contado e -> contado e'.
Proof.
  unfold contado. intros [-> | (s & m & Hs & ->)] He.
  - exact He.
  - cbn [escala st_motivos st_status]. rewrite length_app. cbn. lia.
Qed.

Ltac sobe_ramos :=
  todos_os_ramos;
  first [ left; reflexivity
        | right; eexists _, _; split; [ | reflexivity ]; cbn; lia ].

Lemma sobe_avalia_ocv_absoluta (ocv : Q) (c : CellSpec) :
  sobe estado_inicial (avalia_ocv_absoluta ocv c estado_inicial).
Proof.
  unfold avalia_ocv_absoluta, estado_inicial. reduz_status. sobe_ramos.
Qed.

Lemma sobe_avalia_ocv_desvio (ocv : Q) (ocv_media : option Q)
    (is_avulsa : bool) (e : estado) :
  sobe e (avalia_ocv_desvio ocv ocv_media is_avulsa e).
Proof.
  unfold avalia_ocv_desvio.
  destruct e as [[ | | | ] ms], is_avulsa, ocv_media as [media | ];
    reduz_status; sobe_ramos.
Qed.

Lemma sobe_avalia_ir_absoluta (ir : Q) (e : estado) :
  sobe e (avalia_ir_absoluta ir e).
Proof.
  unfold avalia_ir_absoluta.
  destruct e as [[ | | | ] ms]; reduz_status; sobe_ramos.
Qed.

Lemma sobe_avalia_ir_desvio (ir : Q) (ir_media : option Q)
    (is_avulsa : bool) (e : estado) :
  exists e', avalia_ir_desvio ir ir_media is_avulsa e = Retorna e'
             /\ sobe e e'.
Proof.
  unfold avalia_ir_desvio.
  destruct is_avulsa, ir_media as [media | ]; cbn [negb];
    try (exists e; split; [ reflexivity | left; reflexivity ]).
  destruct (media >? 0) eqn:Epos;
    [ | exists e; split; [ reflexivity | left; reflexivity ] ].
  apply Qltb_true in Epos. rewrite truediv_retorna by lra. cbn [bind].
  destruct e as [[ | | | ] ms]; reduz_status; todos_os_ramos;
    eexists; (split; [ reflexivity | ]);
    first [ left; reflexivity
          | right; eexists _, _; split; [ | reflexivity ]; cbn; lia ].
Qed.

Lemma abaixo_do_corte_estado (ocv ir : Q) (c : CellSpec)
    (ocv_media ir_media : option Q) (is_avulsa : bool) :
  ocv < TENSAO_CORTE c ->
  avaliar_celula_estado ocv ir c ocv_media ir_media is_avulsa
  = Retorna {| st_status := Critico;
               st_motivos := [msg_ocv_muito_baixa c] |}.
Proof.
  intros H. unfold avaliar_celula_estado, avalia_ocv_absoluta.
  replace (ocv <? TENSAO_CORTE c) with true
    by (symmetry; apply Qltb_true; exact H).
  unfold escala, estado_inicial. cbn [st_motivos app].
  rewrite critico_permanece_ocv_desvio, critico_permanece_ir_absoluta,
    critico_permanece_ir_desvio.
  reflexivity.
Qed.

(** X2.  The evaluation of a cell reports one or two reasons, never
    more: a block adds a reason only when it raises the status.  A cell
    that ends [Bom] carries exactly the default reason, and one that ends
    [Monitorar] or [Critico] exactly one reason. *)
Theorem motivos_contados (ocv ir : Q) (c : CellSpec)
    (ocv_media ir_media : option Q) (is_avulsa : bool) :
  exists e,
    avaliar_celula_estado ocv ir c ocv_media ir_media is_avulsa = Retorna e
    /\ (1 <= List.length (st_motivos e) <= 2)%nat
    /\ (st_status e = Bom -> st_motivos e = [msg_dentro])
    /\ (st_status e = Monitorar \/ st_status e = Critico ->
        List.length (st_motivos e) = 1%nat).
Proof.
  destruct (Qlt_le_dec ocv (TENSAO_CORTE c)) as [Hlt | Hge].
  { eexists. split; [ apply abaixo_do_corte_estado; exact Hlt | ].
    cbn. repeat split; try lia. intros H. discriminate H. }
  destruct (acima_do_corte_nao_critico ocv ir c ocv_media ir_media is_avulsa
              Hge) as (s & texto & Hind & Hs).
  unfold avaliar_celula_individual in Hind.
  unfold avaliar_celula_estado in *.
  set (e1 := avalia_ocv_absoluta ocv c estado_inicial) in *.
  set (e2 := avalia_ocv_desvio ocv ocv_media is_avulsa e1) in *.
  set (e3 := avalia_ir_absoluta ir e2) in *.
  destruct (sobe_avalia_ir_desvio ir ir_media is_avulsa e3)
    as (e4 & He4 & Hs4).
  rewrite He4 in *. cbn [bind] in *. injection Hind as Hst _.
  rewrite motivo_padrao_status in Hst.
  assert (H1 : sobe estado_inicial e1) by apply sobe_avalia_ocv_absoluta.
  assert (H2 : sobe e1 e2) by apply sobe_avalia_ocv_desvio.
  assert (H3 : sobe e2 e3) by apply sobe_avalia_ir_absoluta.
  assert (Hc : contado e4).
  { apply (sobe_contado e3); [ exact Hs4 | ].
    apply (sobe_contado e2); [ exact H3 | ].
    apply (sobe_contado e1); [ exact H2 | ].
    apply (sobe_contado estado_inicial); [ exact H1 | ].
    unfold contado. cbn. lia. }
  assert (Hj : justificado e4).
  { apply (passo_justificado e3); [ apply sobe_passo; exact Hs4 | ].
    apply (passo_justificado e2); [ apply sobe_passo; exact H3 | ].
    apply (passo_justificado e1); [ apply sobe_passo; exact H2 | ].
    apply (passo_justificado estado_inicial);
      [ apply sobe_passo; exact H1 | ].
    left. reflexivity. }
  exists (motivo_padrao e4). split; [ reflexivity | ].
  unfold contado in Hc. unfold motivo_padrao.
  destruct e4 as [s4 [ | m ms]]; cbn [st_status st_motivos] in *.
  - destruct Hj as [Hb | Hm]; [ | contradiction Hm; reflexivity ].
    cbn [st_status] in Hb. rewrite Hb. cbn.
    split; [ lia | ]. split; [ reflexivity | ].
    intros [H | H]; discriminate H.
  - subst s4. cbn [List.length] in *.
    split; [ destruct s; cbn [status_pack_ordem] in Hc; try lia;
             contradiction Hs; reflexivity | ].
    split.
    + intros ->. cbn [status_pack_ordem] in Hc. lia.
    + intros [-> | ->]; [ | contradiction Hs; reflexivity ].
      cbn [status_pack_ordem] in Hc. lia.
Qed.

(** ** Evaluations without deviation checks *)

(** X3.  A standalone evaluation ignores both pack means whatever the
    readings are: it is the pack evaluation with no mean supplied.  A pack
    evaluation whose resistance mean is zero or negative (every cell
    reading 0 mOhm) skips the percentage check instead of dividing by it:
    it is the evaluation with that mean absent. *)
Theorem avaliacao_sem_desvio (ocv ir : Q) (c : CellSpec)
    (ocv_media ir_media : option Q) :
  avaliar_celula_individual ocv ir c ocv_media ir_media true
  = avaliar_celula_individual ocv ir c None None false
  /\ (forall media : Q,
        media <= 0 ->
        avaliar_celula_individual ocv ir c ocv_media (Some media) false
        = avaliar_celula_individual ocv ir c ocv_media None false).
Proof.
  split; [ reflexivity | ].
  intros media Hm.
  unfold avaliar_celula_individual, avaliar_celula_estado, avalia_ir_desvio.
  cbn [negb].
  replace (media >? 0) with false
    by (symmetry; apply Qltb_false; exact Hm).
  reflexivity.
Qed.

Lemma avaliacao_sem_desvio_media_zero :
  avaliar_celula_individual 3.70 0 Sony (Some 3.70) (Some 0) false
  = avaliar_celula_individual 3.70 0 Sony (Some 3.70) None false.
Proof.
  apply (avaliacao_sem_desvio 3.70 0 Sony (Some 3.70) None).
  vm_compute. discriminate.
Defined.

(** ** The status of the total voltage *)

Ltac compara_reduz :=
  unfold Qgtb, Qgeb in *;
  repeat match goal with
         | |- context [Qltb ?a ?b] =>
             let H := fresh "Hc" in
             destruct (Qltb_spec a b) as [H | H];
             [ | apply Qnot_lt_le in H ];
             cbv iota
         end.

(** X4.  The status of the total voltage is [Critico] exactly when the
    measured total is more than 0.1 V above the pack maximum or below the
    critical minimum. *)
Theorem pack_critico_sse (v : Q) (p : PackSpec) :
  fst (avaliar_pack_voltage v p) = Critico
  <-> (PACK_TENSAO_MAX p + 0.1 < v
       \/ v < PACK_TENSAO_LIMIAR_CRITICO_MIN p).
Proof.
  unfold avaliar_pack_voltage, avaliar_pack_estado. cbn [fst].
  compara_reduz; cbn [st_status escala estado_inicial];
    (split; [ intros H; first [ discriminate H | auto ]
            | intros [H | H]; first [ reflexivity | exfalso; lra ] ]).
Qed.

(** X5.  Below the overcharge limit the status of the total voltage
    never improves as the voltage drops, for every pack specification,
    whatever the order of its thresholds. *)
Theorem pack_voltage_monotona (p : PackSpec) (v1 v2 : Q) :
  v1 <= v2 -> v2 <= PACK_TENSAO_MAX p + 0.1 ->
  (status_pack_ordem (fst (avaliar_pack_voltage v2 p))
   <= status_pack_ordem (fst (avaliar_pack_voltage v1 p)))%nat.
Proof.
  intros H12 Hmax.
  unfold avaliar_pack_voltage, avaliar_pack_estado. cbn [fst].
  compara_reduz; cbn [st_status escala estado_inicial status_pack_ordem];
    first [ lia | exfalso; lra ].
Qed.

Lemma pack_voltage_monotona_exemplo :
  (status_pack_ordem (fst (avaliar_pack_voltage 43.00 (pack_specs_de Sony 12)))
   <= status_pack_ordem
        (fst (avaliar_pack_voltage 31.00 (pack_specs_de Sony 12))))%nat.
Proof.
  apply pack_voltage_monotona; vm_compute; discriminate.
Defined.




(** ** Packs of identical cells *)

Lemma soma_repeat (x : Q) (n : nat) :
  fold_right Qplus 0 (repeat x n) == inject_Z (Z.of_nat n) * x.
Proof.
  induction n as [ | n IH].
  - cbn. ring.
  - cbn [repeat fold_right]. rewrite IH.
    rewrite Nat2Z.inj_succ. unfold Z.succ. rewrite inject_Z_plus. ring.
Qed.

Lemma media_repeat (x : Q) (n : nat) :
  (0 < n)%nat -> media (repeat x n) == x.
Proof.
  intros Hn. unfold media. rewrite repeat_length, soma_repeat.
  assert (Hq : 0 < inject_Z (Z.of_nat n)).
  { apply fator_serie_positivo. lia. }
  field. lra.
Qed.

(** A cell that sits exactly at both pack means is evaluated as a
    standalone cell. *)
Lemma avaliacao_na_media (ocv ir : Q) (c : CellSpec) (m1 m2 : Q) :
  m1 == ocv -> m2 == ir ->
  avaliar_celula_individual ocv ir c (Some m1) (Some m2) false
  = avaliar_celula_individual ocv ir c None None true.
Proof.
  intros H1 H2.
  unfold avaliar_celula_individual, avaliar_celula_estado.
  assert (Ho : avalia_ocv_desvio ocv (Some m1) false
                 (avalia_ocv_absoluta ocv c estado_inicial)
               = avalia_ocv_desvio ocv None true
                   (avalia_ocv_absoluta ocv c estado_inicial)).
  { unfold avalia_ocv_desvio. cbn [negb].
    assert (Hz : Qabs (ocv - m1) <= 0)
      by (apply Qabs_Qle_condition; split; lra).
    limiares. decide_comparacoes. reflexivity. }
  rewrite Ho.
  set (e3 := avalia_ir_absoluta ir _).
  unfold avalia_ir_desvio. cbn [negb].
  destruct (m2 >? 0) eqn:Epos; [ | reflexivity ].
  apply Qltb_true in Epos.
  rewrite truediv_retorna by lra. cbn [bind].
  assert (Hz : (ir - m2) / m2 * 100 == 0).
  { setoid_replace (ir - m2) with 0 by lra. field. lra. }
  limiares. decide_comparacoes. reflexivity.
Qed.

Lemma avaliar_celulas_repeat (ocv ir : Q) (c : CellSpec) (m1 m2 : Q)
    (r : status * string) (n : nat) :
  avaliar_celula_individual ocv ir c (Some m1) (Some m2) false = Retorna r ->
  avaliar_celulas (repeat (ocv, ir) n) c m1 m2 = Retorna (repeat r n).
Proof.
  intros Hr. induction n as [ | n IH]; cbn [repeat avaliar_celulas].
  - reflexivity.
  - rewrite Hr, IH. reflexivity.
Qed.

Lemma map_fst_repeat (ocv ir : Q) (n : nat) :
  map fst (repeat (ocv, ir) n) = repeat ocv n.
Proof. induction n as [ | n IH]; cbn; [ | rewrite IH ]; reflexivity. Qed.

Lemma map_snd_repeat (ocv ir : Q) (n : nat) :
  map snd (repeat (ocv, ir) n) = repeat ir n.
Proof. induction n as [ | n IH]; cbn; [ | rewrite IH ]; reflexivity. Qed.

(** X7.  In a pack whose cells all have the same voltage and the same
    resistance, the comparison with the pack means adds nothing: every
    cell gets the status and the text it gets as a standalone cell. *)
Theorem pack_equilibrado (ocv ir : Q) (c : CellSpec) (n : nat) :
  exists r,
    avaliar_celula_individual ocv ir c None None true = Retorna r
    /\ avaliar_celulas (repeat (ocv, ir) n) c
         (media (map fst (repeat (ocv, ir) n)))
         (media (map snd (repeat (ocv, ir) n)))
       = Retorna (repeat r n).
Proof.
  destruct (avaliar_celula_estado_retorna ocv ir c None None true)
    as (e & He & _).
  pose proof (avaliar_celula_individual_estado _ _ _ _ _ _ _ He) as Hr.
  eexists. split; [ exact Hr | ].
  destruct n as [ | n]; [ reflexivity | ].
  apply avaliar_celulas_repeat.
  rewrite avaliacao_na_media; [ exact Hr | | ].
  - rewrite map_fst_repeat. apply media_repeat. lia.
  - rewrite map_snd_repeat. apply media_repeat. lia.
Qed.

(** ** The table of a fresh form *)






(** ** A pack below its cut-off *)

Lemma existe_celula_abaixo (celulas : list (Q * Q)) (x : Q) :
  fold_right Qplus 0 (map fst celulas)
  < inject_Z (Z.of_nat (List.length celulas)) * x ->
  exists ocv ir, In (ocv, ir) celulas /\ ocv < x.
Proof.
  induction celulas as [ | [ocv ir] resto IH]; intros H.
  - cbn [map fold_right List.length] in H.
    change (inject_Z (Z.of_nat 0)) with 0 in H.
    assert (E : 0 * x == 0) by ring.
    rewrite E in H. exfalso. apply (Qlt_irrefl 0 H).
  - cbn [map fold_right fst List.length] in H.
    rewrite Nat2Z.inj_succ in H. unfold Z.succ in H.
    rewrite inject_Z_plus in H.
    destruct (Qlt_le_dec ocv x) as [Hlt | Hge].
    + exists ocv, ir. split; [ left; reflexivity | exact Hlt ].
    + destruct IH as (o & i & Hin & Ho).
      * set (s := fold_right Qplus 0 (map fst resto)) in *.
        set (q := inject_Z (Z.of_nat (List.length resto))) in *.
        assert (E : (q + inject_Z 1) * x == q * x + x) by ring.
        rewrite E in H. generalize dependent (q * x). intros qx H. lra.
      * exists o, i. split; [ right; exact Hin | exact Ho ].
Qed.

Lemma avaliar_celulas_In (celulas : list (Q * Q)) (c : CellSpec)
    (m1 m2 : Q) (rs : list (status * string)) (ocv ir : Q) :
  avaliar_celulas celulas c m1 m2 = Retorna rs ->
  In (ocv, ir) celulas ->
  exists r,
    avaliar_celula_individual ocv ir c (Some m1) (Some m2) false = Retorna r
    /\ In r rs.
Proof.
  revert rs. induction celulas as [ | [o i] resto IH]; intros rs Hrs Hin.
  - contradiction.
  - cbn [avaliar_celulas] in Hrs.
    destruct (avaliar_celula_individual o i c (Some m1) (Some m2) false)
      as [r | x] eqn:Er; [ | discriminate Hrs ].
    cbn [bind] in Hrs.
    destruct (avaliar_celulas resto c m1 m2) as [rs' | x] eqn:Ers;
      [ | discriminate Hrs ].
    cbn [bind] in Hrs. injection Hrs as <-.
    destruct Hin as [Heq | Hin].
    + injection Heq as <- <-. exists r. split; [ exact Er | left; reflexivity ].
    + destruct (IH rs' eq_refl Hin) as (r' & Hr' & Hin').
      exists r'. split; [ exact Hr' | right; exact Hin' ].
Qed.

(** X9.  The two diagnoses agree on a deeply discharged pack: when the
    measured total is more than 0.5 V under the pack cut-off and the
    discrepancy warning of the sum of cell voltages is not raised, the
    total is [Critico] and so is at least one cell, and the pack as a
    whole. *)
Theorem pack_descarregado_tem_celula_critica (total : Q)
    (celulas : list (Q * Q)) (c : CellSpec) :
  discrepancia total (map fst celulas) = false ->
  total + 0.5
  < inject_Z (Z.of_nat (List.length celulas)) * TENSAO_CORTE c ->
  exists rs,
    analisar_pack total celulas c
      (pack_specs_de c (Z.of_nat (List.length celulas)))
    = Retorna (Critico, rs, Critico)
    /\ In (Critico, msg_ocv_muito_baixa c) rs.
Proof.
  intros Hd Ht.
  unfold discrepancia in Hd. unfold Qgtb in Hd. apply Qltb_false in Hd.
  apply Qabs_Qle_condition in Hd.
  destruct (existe_celula_abaixo celulas (TENSAO_CORTE c))
    as (ocv & ir & Hin & Hocv); [ lra | ].
  unfold analisar_pack.
  destruct (avaliar_celulas_retorna celulas c (media (map fst celulas))
              (media (map snd celulas))) as (rs & Hrs & _).
  rewrite Hrs. cbn [bind].
  assert (Hv : fst (avaliar_pack_voltage total
                      (pack_specs_de c (Z.of_nat (List.length celulas))))
               = Critico).
  { unfold avaliar_pack_voltage, avaliar_pack_estado, pack_specs_de.
    cbn [fst PACK_TENSAO_MAX PACK_TENSAO_LIMIAR_CRITICO_MIN].
    destruct (total >? _); [ reflexivity | ].
    replace (total
             <? inject_Z (Z.of_nat (List.length celulas)) * TENSAO_CORTE c)
      with true by (symmetry; apply Qltb_true; lra).
    reflexivity. }
  rewrite Hv, status_pack_geral_base_Critico.
  exists rs. split; [ reflexivity | ].
  destruct (avaliar_celulas_In _ _ _ _ _ _ _ Hrs Hin) as (r & Hr & Hinr).
  rewrite (abaixo_do_corte_critico _ _ _ _ _ _ Hocv) in Hr.
  injection Hr as <-. exact Hinr.
Qed.

Lemma pack_descarregado_exemplo :
  exists rs,
    analisar_pack 23.50 (repeat (2.00, 16.00) 12) Sony
      (pack_specs_de Sony (Z.of_nat (List.length (repeat (2.00, 16.00) 12))))
    = Retorna (Critico, rs, Critico)
    /\ In (Critico, msg_ocv_muito_baixa Sony) rs.
Proof.
  apply (pack_descarregado_tem_celula_critica 23.50
           (repeat (2.00, 16.00) 12) Sony).
  - vm_compute. reflexivity.
  - vm_compute. reflexivity.
Defined.

(** ** Colours of the statuses *)

(** X10.  Whatever a cell evaluation returns, the style of its status in
    the result table is the background colour that the bar charts give to
    that status; the four statuses get four different styles, and a string
    that is not one of the four labels gets no style. *)
Theorem color_status_das_avaliacoes (ocv ir : Q) (c : CellSpec)
    (ocv_media ir_media : option Q) (is_avulsa : bool) :
  (exists s texto cor,
      avaliar_celula_individual ocv ir c ocv_media ir_media is_avulsa
      = Retorna (s, texto)
      /\ procura (rotulo s) color_discrete_map = Retorna cor
      /\ color_status (rotulo s) = ("background-color: " ++ cor)%string)
  /\ (forall s1 s2 : status,
        color_status (rotulo s1) = color_status (rotulo s2) -> s1 = s2)
  /\ (forall val : string,
        (forall s : status, val <> rotulo s) ->
        color_status val = ""%string).
Proof.
  split; [ | split ].
  - destruct (avaliar_celula_estado_retorna ocv ir c ocv_media ir_media
                is_avulsa) as (e & He & _).
    rewrite (avaliar_celula_individual_estado _ _ _ _ _ _ _ He).
    exists (st_status e), (junta_motivos (st_motivos e)).
    destruct (st_status e); eexists; (split; [ reflexivity | ]);
      split; reflexivity.
  - intros s1 s2 H.
    destruct s1, s2; first [ reflexivity | vm_compute in H; discriminate H ].
  - intros val Hval. unfold color_status.
    destruct (String.eqb_spec val "Crítico") as [E | _];
      [ exfalso; apply (Hval Critico); exact E | ].
    destruct (String.eqb_spec val "Ruim") as [E | _];
      [ exfalso; apply (Hval Ruim); exact E | ].
    destruct (String.eqb_spec val "Monitorar") as [E | _];
      [ exfalso; apply (Hval Monitorar); exact E | ].
    destruct (String.eqb_spec val "Bom") as [E | _];
      [ exfalso; apply (Hval Bom); exact E | ].
    reflexivity.
Qed.

(** ** The table of the pack form *)

Lemma pack_cell_data_padrao_length (spec : CellSpec) (pack : PackSpec) :
  List.length (pack_cell_data_padrao spec pack)
  = Z.to_nat (NUM_CELULAS_SERIE pack).
Proof.
  unfold pack_cell_data_padrao. rewrite length_map, length_seq. reflexivity.
Qed.

(** X11.  After the block that prepares the pack table, whatever the
    session held before, the table exists and has exactly as many rows as
    the series count (none for a count that is not positive); it is the
    table of defaults or the one the session held.  A table with the
    right number of rows that was made for the selected cell type is kept
    as it is, with the rest of the state. *)
Theorem prepara_pack_cell_data_linhas (spec : CellSpec) (pack : PackSpec)
    (s : sessao_pack) :
  (exists tabela,
      sp_pack_cell_data (prepara_pack_cell_data spec pack s) = Some tabela
      /\ List.length tabela = Z.to_nat (NUM_CELULAS_SERIE pack)
      /\ (tabela = pack_cell_data_padrao spec pack
          \/ sp_pack_cell_data s = Some tabela))
  /\ (forall tabela,
        sp_pack_cell_data s = Some tabela ->
        sp_last_selected_cell_type_pack_for_defaults s
        = Some (sp_selected_cell_type_pack s) ->
        Z.of_nat (List.length tabela) = NUM_CELULAS_SERIE pack ->
        prepara_pack_cell_data spec pack s = s).
Proof.
  split.
  - unfold prepara_pack_cell_data.
    destruct (negb _ || negb _) eqn:E; cbn [sp_pack_cell_data].
    + eexists. split; [ reflexivity | ].
      split; [ apply pack_cell_data_padrao_length | left; reflexivity ].
    + apply orb_false_elim in E. destruct E as [_ E].
      apply negb_false_iff, Z.eqb_eq in E.
      eexists. split; [ reflexivity | ].
      split; [ lia | ].
      destruct (sp_pack_cell_data s) as [t | ];
        [ right; reflexivity | left; reflexivity ].
  - intros tabela Ht Hlast Hlen. unfold prepara_pack_cell_data.
    rewrite Ht, Hlast. cbn [option_string_eqb].
    rewrite String.eqb_refl. cbn [negb orb].
    replace (Z.of_nat (List.length tabela) =? NUM_CELULAS_SERIE pack)%Z
      with true by (symmetry; apply Z.eqb_eq; exact Hlen).
    cbn [negb]. destruct s as [d l sel]. cbn in *. subst. reflexivity.
Qed.

(** ** Adding loose cells *)

Section AdicionarCelula.

Variable data : Type.
Variable strftime : data -> string.
Variable hoje : data.
Variable spec : CellSpec.

Lemma existsb_eqb_In (x : string) (l : list string) :
  existsb (String.eqb x) l = false -> ~ In x l.
Proof.
  intros H Hin.
  assert (Ht : existsb (String.eqb x) l = true).
  { apply existsb_exists. exists x. split; [ exact Hin | ].
    apply String.eqb_refl. }
  rewrite H in Ht. discriminate Ht.
Qed.

Lemma adicionar_celula_ids (s : sessao_avulsa data) (id : string) (d : data)
    (ocv ir : Q) :
  NoDup (map la_id (celulas_cadastradas s)) ->
  let s' := fst (adicionar_celula strftime hoje spec s id d ocv ir) in
  NoDup (map la_id (celulas_cadastradas s'))
  /\ exists novas,
       celulas_cadastradas s' = celulas_cadastradas s ++ novas
       /\ (List.length novas <= 1)%nat.
Proof.
  intros Hnd. unfold adicionar_celula.
  destruct (negb (String.eqb id "")).
  - destruct (existsb (String.eqb id) (map la_id (celulas_cadastradas s)))
      eqn:E; cbn [fst].
    + split; [ exact Hnd | ]. exists []. rewrite app_nil_r.
      split; [ reflexivity | cbn; lia ].
    + cbn [celulas_cadastradas sa_avulsa_cell_data]. split.
      * rewrite map_app. cbn [map la_id].
        apply NoDup_app_remove_l with (l := []). cbn [app].
        apply Permutation_NoDup
          with (l := id :: map la_id (celulas_cadastradas s)).
        -- apply Permutation_cons_append.
        -- constructor; [ apply existsb_eqb_In; exact E | exact Hnd ].
      * eexists. split; [ reflexivity | cbn; lia ].
  - cbn [fst]. split; [ exact Hnd | ]. exists []. rewrite app_nil_r.
    split; [ reflexivity | cbn; lia ].
Qed.

End AdicionarCelula.

(** X12.  Registering loose cells with the add button keeps the
    identifiers unique: from a table whose identifiers are pairwise
    different (an absent or empty table is one), any sequence of presses,
    with any inputs, leaves a table whose identifiers are pairwise
    different, and it only appends rows to the table it started from.  A
    press with an empty identifier or with an identifier already in the
    table changes nothing. *)
Theorem adicionar_varias_ids_unicos (data : Type) (strftime : data -> string)
    (hoje : data) (spec : CellSpec) (s : sessao_avulsa data)
    (entradas : list (string * data * Q * Q)) :
  NoDup (map la_id (celulas_cadastradas s)) ->
  NoDup (map la_id
           (celulas_cadastradas
              (adicionar_varias strftime hoje spec s entradas)))
  /\ (exists novas,
        celulas_cadastradas (adicionar_varias strftime hoje spec s entradas)
        = celulas_cadastradas s ++ novas
        /\ (List.length novas <= List.length entradas)%nat)
  /\ (forall id d ocv ir,
        id = ""%string \/ In id (map la_id (celulas_cadastradas s)) ->
        fst (adicionar_celula strftime hoje spec s id d ocv ir) = s).
Proof.
  intros Hnd. split; [ | split ].
  - revert s Hnd. unfold adicionar_varias.
    induction entradas as [ | [[[id d] ocv] ir] resto IH]; intros s Hnd;
      cbn [fold_left].
    + exact Hnd.
    + apply IH.
      apply (adicionar_celula_ids data strftime hoje spec s id d ocv ir Hnd).
  - revert s Hnd. unfold adicionar_varias.
    induction entradas as [ | [[[id d] ocv] ir] resto IH]; intros s Hnd;
      cbn [fold_left].
    + exists []. rewrite app_nil_r. split; [ reflexivity | cbn; lia ].
    + destruct (adicionar_celula_ids data strftime hoje spec s id d ocv ir
                  Hnd) as (Hnd' & n1 & E1 & L1).
      destruct (IH _ Hnd') as (n2 & E2 & L2).
      exists (n1 ++ n2). rewrite E2, E1, <- app_assoc.
      split; [ reflexivity | ]. rewrite length_app. cbn [List.length]. lia.
  - intros id d ocv ir [-> | Hin]; unfold adicionar_celula.
    + reflexivity.
    + destruct (negb (String.eqb id "")); [ | reflexivity ].
      replace (existsb (String.eqb id) (map la_id (celulas_cadastradas s)))
        with true; [ reflexivity | ].
      symmetry. apply existsb_exists. exists id.
      split; [ exact Hin | apply String.eqb_refl ].
Qed.

Lemma adicionar_varias_ids_unicos_exemplo :
  NoDup (map la_id
           (celulas_cadastradas
              (adicionar_varias (fun d : nat => "2025-01-01"%string) 0%nat
                 Sony
                 {| sa_avulsa_cell_data := None;
                    sa_new_avulsa_id := "";
                    sa_new_avulsa_date := 0%nat;
                    sa_new_avulsa_ocv := 4.20;
                    sa_new_avulsa_ir := 16.00 |}
                 [ ("A1"%string, 0%nat, 4.10, 15.00);
                   ("A1"%string, 0%nat, 3.90, 18.00);
                   (""%string, 0%nat, 4.00, 17.00);
                   ("B2"%string, 0%nat, 4.00, 17.00) ]))).
Proof.
  apply (adicionar_varias_ids_unicos nat (fun d : nat => "2025-01-01"%string)
           0%nat Sony).
  cbn. constructor.
Defined.

(** ** The cell type of an uploaded file *)

(** X13.  Whatever manufacturer an uploaded file names, string or not,
    the cell type selected from it is a key of the table of cell models,
    so that the model lookup that follows finds a model; for the
    manufacturer of a registered model it selects the key of that model
    again, and any other manufacturer selects Panasonic. *)
Theorem cell_type_from_json_registrado (fabricante : json) :
  (exists c, procura (cell_type_from_json fabricante) ALL_CELL_SPECS
             = Retorna c)
  /\ (forall k c, In (k, c) ALL_CELL_SPECS ->
        cell_type_from_json (JStr (FABRICANTE c)) = k)
  /\ (fabricante <> JStr "Sony" ->
      cell_type_from_json fabricante = "Panasonic"%string).
Proof.
  split; [ | split ].
  - unfold cell_type_from_json.
    destruct (json_igual_str fabricante "Sony"); eexists; reflexivity.
  - intros k c [H | [H | []]]; injection H as <- <-; reflexivity.
  - intros H. unfold cell_type_from_json, json_igual_str.
    destruct fabricante as [ | b | q | s | l | o]; try reflexivity.
    destruct (String.eqb_spec s "Sony") as [-> | _]; [ | reflexivity ].
    contradiction H. reflexivity.
Qed.

(** ** The sorted report of loose cells *)

Section RelatorioAvulsas.

Variable to_numeric : string -> option Q.

Lemma compara_coluna_antisim (asc : bool) (a b : option Q) :
  compara_coluna asc b a = CompOpp (compara_coluna asc a b).
Proof.
  destruct a as [x | ], b as [y | ], asc; cbn; try reflexivity;
    symmetry; apply Qcompare_antisym.
Qed.

Lemma nao_depois_total (a b : linha_resultado) :
  nao_depois to_numeric a b = false -> nao_depois to_numeric b a = true.
Proof.
  unfold nao_depois.
  rewrite (compara_coluna_antisim true (to_numeric (lr_ir a))).
  rewrite (compara_coluna_antisim false (to_numeric (lr_ocv a))).
  destruct (compara_coluna true _ _), (compara_coluna false _ _); cbn;
    intros H; first [ reflexivity | discriminate H ].
Qed.

Lemma insere_permutacao (x : linha_resultado) (l : list linha_resultado) :
  Permutation (x :: l) (insere to_numeric x l).
Proof.
  induction l as [ | y l IH]; cbn [insere].
  - apply Permutation_refl.
  - destruct (nao_depois to_numeric x y).
    + apply Permutation_refl.
    + apply perm_trans with (y :: x :: l); [ apply perm_swap | ].
      apply perm_skip. exact IH.
Qed.

Lemma ordena_permutacao (l : list linha_resultado) :
  Permutation l (ordena to_numeric l).
Proof.
  induction l as [ | x l IH]; cbn [ordena].
  - apply perm_nil.
  - apply perm_trans with (x :: ordena to_numeric l).
    + apply perm_skip. exact IH.
    + apply insere_permutacao.
Qed.

Lemma insere_ordenada (x : linha_resultado) (l : list linha_resultado) :
  Sorted (fun a b => nao_depois to_numeric a b = true) l ->
  Sorted (fun a b => nao_depois to_numeric a b = true)
    (insere to_numeric x l).
Proof.
  induction 1 as [ | y l Hs IH Hhd]; cbn [insere].
  - repeat constructor.
  - destruct (nao_depois to_numeric x y) eqn:E.
    + constructor; [ constructor; assumption | constructor; exact E ].
    + constructor; [ exact IH | ].
      destruct l as [ | z l]; cbn [insere].
      * constructor. apply nao_depois_total. exact E.
      * destruct (nao_depois to_numeric x z).
        -- constructor. apply nao_depois_total. exact E.
        -- constructor. inversion Hhd; assumption.
Qed.

Lemma ordena_ordenada (l : list linha_resultado) :
  Sorted (fun a b => nao_depois to_numeric a b = true)
    (ordena to_numeric l).
Proof.
  induction l as [ | x l IH]; cbn [ordena].
  - constructor.
  - apply insere_ordenada. exact IH.
Qed.

Lemma compara_coluna_trans (asc : bool) (a b c : option Q) :
  compara_coluna asc a b <> Gt -> compara_coluna asc b c <> Gt ->
  compara_coluna asc a c <> Gt
  /\ (compara_coluna asc a b = Lt \/ compara_coluna asc b c = Lt ->
      compara_coluna asc a c = Lt)
  /\ (compara_coluna asc a b = Eq -> compara_coluna asc b c = Eq ->
      compara_coluna asc a c = Eq).
Proof.
  destruct a as [x | ], b as [y | ], c as [z | ], asc; cbn;
    intros H1 H2;
    repeat match goal with
           | |- context [Qcompare ?u ?v] => destruct (Qcompare_spec u v)
           | H : context [Qcompare ?u ?v] |- _ =>
               destruct (Qcompare_spec u v)
           end;
    try congruence;
    (split; [ | split ]); intros;
    try congruence; try tauto; try (exfalso; lra).
Qed.

Lemma nao_depois_trans (a b c : linha_resultado) :
  nao_depois to_numeric a b = true -> nao_depois to_numeric b c = true ->
  nao_depois to_numeric a c = true.
Proof.
  unfold nao_depois.
  pose proof (compara_coluna_trans true (to_numeric (lr_ir a))
                (to_numeric (lr_ir b)) (to_numeric (lr_ir c))) as Ti.
  pose proof (compara_coluna_trans false (to_numeric (lr_ocv a))
                (to_numeric (lr_ocv b)) (to_numeric (lr_ocv c))) as To.
  destruct (compara_coluna true (to_numeric (lr_ir a)) (to_numeric (lr_ir b)));
    destruct (compara_coluna true (to_numeric (lr_ir b))
                (to_numeric (lr_ir c)));
    intros Hab Hbc; try discriminate Hab; try discriminate Hbc;
    destruct Ti as (Tgt & Tlt & Teq); try discriminate;
    try (rewrite Tlt by (first [ left; reflexivity | right; reflexivity ]);
         reflexivity).
  rewrite (Teq eq_refl eq_refl). clear Tgt Tlt Teq.
  destruct (compara_coluna false (to_numeric (lr_ocv a))
              (to_numeric (lr_ocv b)));
    destruct (compara_coluna false (to_numeric (lr_ocv b))
                (to_numeric (lr_ocv c)));
    try discriminate Hab; try discriminate Hbc;
    destruct To as (Tgt & _ & _); try discriminate;
    destruct (compara_coluna false (to_numeric (lr_ocv a))
                (to_numeric (lr_ocv c)));
    first [ reflexivity | exfalso; apply Tgt; reflexivity ].
Qed.

Lemma ordena_fortemente (l : list linha_resultado) :
  StronglySorted (fun a b => nao_depois to_numeric a b = true)
    (ordena to_numeric l).
Proof.
  apply Sorted_StronglySorted; [ | apply ordena_ordenada ].
  intros a b c. apply nao_depois_trans.
Qed.

Lemma avaliar_avulsas_retorna (spec : CellSpec) (ls : list linha_avulsa) :
  exists rs, avaliar_avulsas spec ls = Retorna rs
             /\ Forall2 (linha_de spec) ls rs.
Proof.
  induction ls as [ | l ls IH]; cbn [avaliar_avulsas].
  - exists []. split; [ reflexivity | constructor ].
  - destruct IH as (rs & -> & Hrs).
    destruct (avaliar_celula_estado_retorna (la_ocv l) (la_ir l) spec None
                None true) as (e & He & _).
    rewrite (avaliar_celula_individual_estado _ _ _ _ _ _ _ He).
    cbn [bind]. eexists. split; [ reflexivity | ].
    constructor; [ | exact Hrs ].
    unfold linha_de.
    cbn [lr_id lr_data lr_ocv lr_ir lr_status lr_obs fst snd].
    repeat split.
    apply (avaliar_celula_individual_estado _ _ _ _ _ _ _ He).
Qed.

Lemma sem_nulos_None (df : list linha_df) :
  sem_nulos df = None
  <-> exists l, In l df /\ (df_ocv l = None \/ df_ir l = None).
Proof.
  induction df as [ | l df IH]; cbn [sem_nulos].
  - split; [ discriminate | intros (l & [] & _) ].
  - destruct (df_ocv l) as [ocv | ] eqn:Eo.
    + destruct (df_ir l) as [ir | ] eqn:Ei.
      * destruct (sem_nulos df) as [ls | ].
        -- split; [ discriminate | ].
           intros (l' & [<- | Hin] & H).
           ++ rewrite Eo, Ei in H. destruct H; discriminate.
           ++ assert (Hn : Some ls = None)
                by (apply IH; exists l'; split; assumption).
              discriminate Hn.
        -- split; [ | reflexivity ]. intros _.
           destruct (proj1 IH eq_refl) as (l' & Hin & H).
           exists l'. split; [ right; exact Hin | exact H ].
      * split; [ | reflexivity ]. intros _.
        exists l. split; [ left; reflexivity | right; exact Ei ].
    + split; [ | reflexivity ]. intros _.
      exists l. split; [ left; reflexivity | left; exact Eo ].
Qed.

End RelatorioAvulsas.

(** X14.  The analysis of loose cells never raises.  It refuses the table
    exactly when some reading is not a number; otherwise its report holds
    every registered cell exactly once, each with its readings written
    with two decimals and the status and text of its standalone
    evaluation, and every row stands before all the rows that the sort
    puts after it: by the number read back from the resistance text,
    ascending, then by the number read back from the voltage text,
    descending, a text that is not a number last. *)
Theorem analisar_avulsas_relatorio (to_numeric : string -> option Q)
    (spec : CellSpec) (df : list linha_df) :
  exists saida,
    analisar_avulsas to_numeric spec df = Retorna saida
    /\ (saida = None
        <-> exists l, In l df /\ (df_ocv l = None \/ df_ir l = None))
    /\ (forall ls, sem_nulos df = Some ls ->
        exists avaliadas relatorio,
          saida = Some relatorio
          /\ Forall2 (linha_de spec) ls avaliadas
          /\ Permutation avaliadas relatorio
          /\ StronglySorted (fun a b => nao_depois to_numeric a b = true)
               relatorio).
Proof.
  unfold analisar_avulsas.
  destruct (sem_nulos df) as [ls | ] eqn:Es.
  - destruct (avaliar_avulsas_retorna spec ls) as (rs & -> & Hrs).
    cbn [bind]. eexists. split; [ reflexivity | ]. split.
    + split; [ discriminate | ].
      intros H. apply sem_nulos_None in H. rewrite Es in H. discriminate H.
    + intros ls' Hls. injection Hls as <-.
      exists rs, (ordena to_numeric rs). split; [ reflexivity | ].
      split; [ exact Hrs | ].
      split; [ apply ordena_permutacao | apply ordena_fortemente ].
  - exists None. split; [ reflexivity | ]. split.
    + split; [ | reflexivity ]. intros _. apply sem_nulos_None. exact Es.
    + intros ls Hls. discriminate Hls.
Qed.

(** ** Loading a file of loose cells *)

Section CarregarJSONProps.

Variable loads : string -> option json.
Variable data : Type.
Variable strftime : data -> string.
Variable hoje : data.

Ltac casos :=
  repeat match goal with
         | |- context [match ?x with _ => _ end] => destruct x eqn:?
         end.

Lemma carrega_cabecalho_mantem (json_data : json) (s : sessao_upload data) :
  let s' := fst (carrega_cabecalho strftime hoje json_data s) in
  mesmo_pedido s s'
  /\ su_selected_cell_type_avulsa s' = su_selected_cell_type_avulsa s.
Proof.
  unfold carrega_cabecalho, mesmo_pedido. casos; cbn; auto.
Qed.

Lemma carrega_tipo_mantem (json_data : json) (s : sessao_upload data) :
  let s' := fst (fst (carrega_tipo json_data s)) in
  mesmo_pedido s s' /\ tipo_valido s s'.
Proof.
  unfold carrega_tipo, mesmo_pedido, tipo_valido, cell_type_from_json.
  casos; cbn; auto.
Qed.

Lemma py_in_objeto (k : string) (campos : list (string * json)) :
  py_in k (JObj campos) = Retorna true
  <-> exists v, procura k campos = Retorna v.
Proof.
  cbn [py_in]. induction campos as [ | [k' v'] campos IH];
    cbn [existsb procura fst].
  - split; [ discriminate | intros (v & H); discriminate H ].
  - destruct (String.eqb k k'); cbn [orb].
    + split; [ intros _; exists v'; reflexivity | reflexivity ].
    + exact IH.
Qed.

Lemma corpo_carregar_estado (json_data : json) (s : sessao_upload data) :
  let r := corpo_carregar strftime hoje json_data s in
  let s' := fst (fst r) in
  su_process_avulsa_json_flag s' = su_process_avulsa_json_flag s
  /\ su_avulsa_cell_data s'
     = celulas_do_arquivo json_data (su_avulsa_cell_data s)
  /\ tipo_valido s s'
  /\ (forall rerun, snd r = Retorna rerun ->
        su_uploaded_avulsa_json_string s' = None
        /\ (rerun = true -> su_run_avulsa_analysis s' = Some false)).
Proof.
  unfold corpo_carregar.
  destruct (py_in "individual_cell_results" json_data) as [[ | ] | e] eqn:Ein.
  - destruct (py_getitem json_data "individual_cell_results")
      as [celulas | e] eqn:Eget.
    + destruct json_data as [ | b | q | t | l | campos];
        try discriminate Eget.
      cbn [py_getitem] in Eget. cbn [celulas_do_arquivo]. rewrite Eget.
      set (s1 := {| su_process_avulsa_json_flag := _ |}).
      pose proof (carrega_cabecalho_mantem (JObj campos) s1) as Hc.
      destruct (carrega_cabecalho strftime hoje (JObj campos) s1)
        as [s2 [u | e]]; cbn [fst] in Hc;
        destruct Hc as ((Hf2 & Hs2 & Hd2) & Ht2).
      * pose proof (carrega_tipo_mantem (JObj campos) s2) as Hp.
        destruct (carrega_tipo (JObj campos) s2) as [[s3 msgs] [u' | e]];
          cbn [fst] in Hp; destruct Hp as ((Hf3 & Hs3 & Hd3) & Ht3).
        -- destruct (py_len (su_avulsa_cell_data s3)) as [n | e];
             cbn [fst snd su_process_avulsa_json_flag su_avulsa_cell_data
                  su_uploaded_avulsa_json_string su_run_avulsa_analysis].
           ++ split; [ rewrite Hf3, Hf2; reflexivity | ].
              split; [ rewrite Hd3, Hd2; reflexivity | ].
              split.
              ** unfold tipo_valido in *.
                 cbn [su_selected_cell_type_avulsa].
                 rewrite Ht2 in Ht3. exact Ht3.
              ** intros rerun _. split; [ reflexivity | reflexivity ].
           ++ split; [ rewrite Hf3, Hf2; reflexivity | ].
              split; [ rewrite Hd3, Hd2; reflexivity | ].
              split.
              ** unfold tipo_valido in *. rewrite Ht2 in Ht3. exact Ht3.
              ** intros rerun H. discriminate H.
        -- cbn [fst snd].
           split; [ rewrite Hf3, Hf2; reflexivity | ].
           split; [ rewrite Hd3, Hd2; reflexivity | ].
           split.
           ++ unfold tipo_valido in *. rewrite Ht2 in Ht3. exact Ht3.
           ++ intros rerun H. discriminate H.
      * cbn [fst snd].
        split; [ rewrite Hf2; reflexivity | ].
        split; [ rewrite Hd2; reflexivity | ].
        split; [ left; rewrite Ht2; reflexivity | ].
        intros rerun H. discriminate H.
    + cbn [fst snd]. split; [ reflexivity | ]. split.
      * destruct json_data as [ | b | q | t | l | campos]; try reflexivity.
        cbn [py_getitem] in Eget. cbn [celulas_do_arquivo]. rewrite Eget.
        reflexivity.
      * split; [ left; reflexivity | ]. intros rerun H. discriminate H.
  - cbn [fst snd limpa_string su_process_avulsa_json_flag
         su_avulsa_cell_data su_uploaded_avulsa_json_string].
    split; [ reflexivity | ]. split.
    + destruct json_data as [ | b | q | t | l | campos]; try reflexivity.
      cbn [celulas_do_arquivo].
      destruct (procura "individual_cell_results" campos) as [v | e] eqn:Ep;
        [ | reflexivity ].
      assert (Ht : py_in "individual_cell_results" (JObj campos)
                   = Retorna true)
        by (apply py_in_objeto; exists v; exact Ep).
      rewrite Ht in Ein. discriminate Ein.
    + split; [ left; reflexivity | ].
      intros rerun H. injection H as <-.
      split; [ reflexivity | discriminate ].
  - cbn [fst snd]. split; [ reflexivity | ]. split.
    + destruct json_data as [ | b | q | t | l | campos]; try reflexivity;
        discriminate Ein.
    + split; [ left; reflexivity | ]. intros rerun H. discriminate H.
Qed.

End CarregarJSONProps.

(** X15.  Processing an uploaded file never leaves the request pending:
    when the flag is set and a text is stored, the flag is cleared and the
    stored text removed on every path, success, missing key, text that is
    not JSON, or an unexpected error.  The table of cells is replaced
    exactly when the text decodes to an object that has the key
    "individual_cell_results", by the value under that key, even when a
    later step of the loading fails and an error is shown; the selected
    cell type stays as it was or becomes Sony or Panasonic; a rerun is
    asked only after the analysis flag was switched off.  Without a
    pending request nothing changes. *)
Theorem carregar_json_estado (loads : string -> option json) (data : Type)
    (strftime : data -> string) (hoje : data) (s : sessao_upload data) :
  let r := carregar_json loads strftime hoje s in
  let s' := fst (fst r) in
  (forall texto,
      su_process_avulsa_json_flag s = true ->
      su_uploaded_avulsa_json_string s = Some texto ->
      su_process_avulsa_json_flag s' = false
      /\ su_uploaded_avulsa_json_string s' = None
      /\ su_avulsa_cell_data s'
         = match loads texto with
           | Some json_data =>
               celulas_do_arquivo json_data (su_avulsa_cell_data s)
           | None => su_avulsa_cell_data s
           end)
  /\ tipo_valido s s'
  /\ (snd r = true -> su_run_avulsa_analysis s' = Some false)
  /\ (su_process_avulsa_json_flag s = false
      \/ su_uploaded_avulsa_json_string s = None ->
      r = (s, [], false)).
Proof.
  unfold carregar_json.
  destruct (su_process_avulsa_json_flag s) eqn:Ef;
    destruct (su_uploaded_avulsa_json_string s) as [texto | ] eqn:Es;
    cbn [fst snd].
  2-4: (split; [ intros t H1 H2; discriminate | ];
        split; [ left; reflexivity | ];
        split; [ discriminate | reflexivity ]).
  set (s0 := {| su_process_avulsa_json_flag := false |}).
  destruct (loads texto) as [json_data | ] eqn:El.
  - pose proof (corpo_carregar_estado data strftime hoje json_data s0) as H.
    cbn zeta in H.
    destruct (corpo_carregar strftime hoje json_data s0)
      as [[s1 msgs] [rerun | e]]; cbn [fst snd] in *;
      destruct H as (Hf & Hd & Ht & Hr).
    + destruct (Hr rerun eq_refl) as (Hs & Hrun).
      split; [ intros t _ Ht'; injection Ht' as <-; rewrite El;
               split; [ exact Hf | split; [ exact Hs | exact Hd ] ] | ].
      split; [ exact Ht | ].
      split; [ exact Hrun | ].
      intros [H | H]; discriminate H.
    + cbn [limpa_string su_process_avulsa_json_flag
           su_uploaded_avulsa_json_string su_avulsa_cell_data
           su_run_avulsa_analysis].
      split; [ intros t _ Ht'; injection Ht' as <-; rewrite El;
               split; [ exact Hf | split; [ reflexivity | exact Hd ] ] | ].
      split; [ exact Ht | ].
      split; [ discriminate | ].
      intros [H | H]; discriminate H.
  - cbn [limpa_string su_process_avulsa_json_flag
         su_uploaded_avulsa_json_string su_avulsa_cell_data
         su_run_avulsa_analysis].
    split; [ intros t _ Ht'; injection Ht' as <-; rewrite El;
             split; [ reflexivity | split; reflexivity ] | ].
    split; [ left; reflexivity | ].
    split; [ discriminate | ].
    intros [H | H]; discriminate H.
Qed.

Section CarregarCampos.

Variable data : Type.
Variable strftime : data -> string.
Variable hoje : data.



End CarregarCampos.



(** ** Voltage of a standalone cell *)

Lemma sev_ocv_absoluta_decresce (ocv1 ocv2 : Q) (c : CellSpec) :
  ocv1 <= ocv2 ->
  (status_pack_ordem (sev_ocv_absoluta ocv2 c)
   <= status_pack_ordem (sev_ocv_absoluta ocv1 c))%nat.
Proof.
  intros H. unfold sev_ocv_absoluta. limiares.
  compara; cbn [status_pack_ordem]; first [ lia | exfalso; lra ].
Qed.

(** X17.  No rule of the cell evaluation looks at a voltage that is too
    high: for a standalone cell, or a pack cell with no voltage mean, the
    severity never rises with the voltage, whatever the resistance. *)
Theorem severidade_nao_sobe_com_ocv (ocv1 ocv2 ir : Q) (c : CellSpec)
    (ir_media : option Q) (is_avulsa : bool) :
  ocv1 <= ocv2 ->
  nao_diminui
    (avaliar_celula_individual ocv2 ir c None ir_media is_avulsa)
    (avaliar_celula_individual ocv1 ir c None ir_media is_avulsa).
Proof.
  intros H. unfold nao_diminui.
  rewrite !ordem_avaliar_celula_individual.
  pose proof (sev_ocv_absoluta_decresce ocv1 ocv2 c H).
  assert (E : forall o, sev_ocv_desvio o None is_avulsa = Bom)
    by (intros o; unfold sev_ocv_desvio; destruct is_avulsa; reflexivity).
  rewrite !E. cbn [status_pack_ordem]. lia.
Qed.

Lemma severidade_nao_sobe_com_ocv_exemplo :
  nao_diminui
    (avaliar_celula_individual 9.00 16.00 Sony None None true)
    (avaliar_celula_individual 2.90 16.00 Sony None None true).
Proof.
  apply (severidade_nao_sobe_com_ocv 2.90 9.00 16.00 Sony None true).
  vm_compute. discriminate.
Defined.
